(** * fluster/decoders/gstreamer.py: the GStreamer decoder back-ends

    A shallow embedding of the module: the decoder classes and their class
    attributes, object construction ([__init__]), the two pipeline builders
    ([GStreamer.gen_pipeline] and its override in [GStreamer10]), [decode]
    and the memoised availability probe [check].

    Python [str] is [string]; an exception that a call may raise is the left
    summand of [exn + A]; objects live in a heap indexed by their identity,
    and the calls made to the functions imported from [fluster.utils] are
    recorded in a log next to the state those functions act on. *)

From Stdlib Require Import Ascii String ZArith Bool.
From stdpp Require Import base option list gmap strings.

Local Open Scope char_scope.
Local Open Scope stdpp_scope.

(** ** Exceptions *)

(** The subclasses of [Exception] that occur: those raised by the standard
    library ([ValueError] by [shlex.split] and [str.format], [IndexError] by
    [str.format]) and those of the collaborators.  [try: ... except
    Exception] catches every one of them. *)
Inductive exn : Type :=
| ValueError (msg : string)
| IndexError (msg : string)
| ReferenceError (msg : string)
| UnsupportedFormatError (msg : string)
| ProcessError (output : string)
| TimeoutError (msg : string)
| IOError (msg : string)
| OtherError (msg : string).

(** Results of code that may raise, without state. *)
Definition res_bind {A B} (r : exn + A) (k : A -> exn + B) : exn + B :=
  match r with
  | inl e => inl e
  | inr a => k a
  end.

Definition res_map {A B} (f : A -> B) (r : exn + A) : exn + B :=
  res_bind r (fun a => inr (f a)).

(** ** The fragment of [str.format] that the module uses

    Replacement fields are the auto-numbered [{}]; [{{] and [}}] stand for a
    brace.  A field when the arguments are used up raises [IndexError], a
    lone brace raises [ValueError].  Named and indexed fields and format
    specifications do not occur in the module's template; they are reported
    as a [ValueError] here. *)
Fixpoint format (tpl : string) (args : list string) : exn + string :=
  match tpl with
  | EmptyString => inr EmptyString
  | String "{" (String "}" rest) =>
      match args with
      | a :: args' => res_map (String.append a) (format rest args')
      | [] => inl (IndexError "Replacement index out of range for positional args tuple")
      end
  | String "{" (String "{" rest) => res_map (String "{") (format rest args)
  | String "}" (String "}" rest) => res_map (String "}") (format rest args)
  | String "{" _ => inl (ValueError "unsupported replacement field")
  | String "}" _ => inl (ValueError "Single '}' encountered in format string")
  | String c rest => res_map (String c) (format rest args)
  end.

Definition PIPELINE_TPL : string :=
  "{} filesrc location={} ! {} ! {} ! filesink location={}".

(** ** Decoder classes *)

(** The members of [fluster.codec.Codec] that the module names. *)
Inductive Codec : Type := H264 | H265.

(** Which [gen_pipeline] the method resolution of a class finds: the one of
    the base class [GStreamer], inherited by [GStreamer010], or the override
    of [GStreamer10]. *)
Inductive Builder : Type := Builder_GStreamer | Builder_GStreamer10.

(** The class attributes of a decoder class, after inheritance.
    [hw_acceleration] is [None] where the class leaves it to [Decoder]. *)
Record GStreamerClass : Type := {
  builder : Builder;
  codec : Codec;
  decoder_bin : string;
  cmd : string;
  caps : string;
  gst_api : string;
  api : string;
  provider : string;
  hw_acceleration : option bool
}.

(** [class GStreamer10(GStreamer)]: what a subclass adds is its codec, its
    decoder fragment, its API and, for some, the acceleration flag. *)
Definition GStreamer10 (c : Codec) (bin api_ : string) (hw : option bool)
  : GStreamerClass :=
  {| builder := Builder_GStreamer10; codec := c; decoder_bin := bin;
     cmd := "gst-launch-1.0"; caps := "video/x-raw"; gst_api := "1.0";
     api := api_; provider := "GStreamer"; hw_acceleration := hw |}.

(** [class GStreamer010(GStreamer)] *)
Definition GStreamer010 (c : Codec) (bin api_ : string) (hw : option bool)
  : GStreamerClass :=
  {| builder := Builder_GStreamer; codec := c; decoder_bin := bin;
     cmd := "gst-launch-0.10"; caps := "video/x-raw-yuv"; gst_api := "0.10";
     api := api_; provider := "GStreamer"; hw_acceleration := hw |}.

(** A subclass that sets [provider] itself. *)
Definition with_provider (p : string) (k : GStreamerClass) : GStreamerClass :=
  {| builder := builder k; codec := codec k; decoder_bin := decoder_bin k;
     cmd := cmd k; caps := caps k; gst_api := gst_api k; api := api k;
     provider := p; hw_acceleration := hw_acceleration k |}.

Definition GStreamerLibavH264 :=
  GStreamer10 H264 " h264parse ! avdec_h264 " "Libav" (Some false).
Definition GStreamerLibavH265 :=
  GStreamer10 H265 " h265parse ! avdec_h265 " "Libav" (Some false).
Definition GStreamerVaapiH265Gst10Decoder :=
  GStreamer10 H265 " h265parse ! vaapih265dec " "VAAPI" (Some true).
Definition GStreamerMsdkH265Gst10Decoder :=
  GStreamer10 H265 " h265parse ! msdkh265dec " "MSDK" (Some true).
Definition GStreamerNvdecH265Gst10Decoder :=
  GStreamer10 H265 " h265parse ! nvh265dec " "NVDEC" (Some true).
Definition GStreamerD3d11H265Gst10Decoder :=
  GStreamer10 H265 " h265parse ! d3d11h265dec " "D3D11" (Some true).
Definition GStreamerVaapiH264Gst10Decoder :=
  GStreamer10 H264 " h264parse ! vaapih264dec " "VAAPI" (Some true).
Definition GStreamerMsdkH264Gst10Decoder :=
  GStreamer10 H264 " h264parse ! msdkh264dec " "MSDK" (Some true).
Definition GStreamerNvdecH264Gst10Decoder :=
  GStreamer10 H264 " h264parse ! nvh264dec " "NVDEC" (Some true).
Definition GStreamerD3d11H264Gst10Decoder :=
  GStreamer10 H264 " h264parse ! d3d11h264dec " "D3D11" (Some true).
Definition FluendoH265Gst10Decoder :=
  with_provider "Fluendo" (GStreamer10 H265 " h265parse ! fluh265dec " "SW" None).
Definition FluendoH265Gst010Decoder :=
  with_provider "Fluendo" (GStreamer010 H265 " h265parse ! fluh265dec " "SW" None).
Definition FluendoH264Gst10Decoder :=
  with_provider "Fluendo" (GStreamer10 H264 " h264parse ! fluh264dec " "SW" None).
Definition FluendoH264Gst010Decoder :=
  with_provider "Fluendo" (GStreamer010 H264 " fluh264dec " "SW" None).
Definition FluendoH264VAGst10Decoder :=
  with_provider "Fluendo" (GStreamer10 H264 " h264parse ! fluvadec " "HW" (Some true)).
Definition FluendoH265VAGst10Decoder :=
  with_provider "Fluendo" (GStreamer10 H265 " h265parse ! fluvadec " "HW" (Some true)).

(** The classes under [@register_decoder], in the order of the module. *)
Definition registered : list GStreamerClass :=
  [ GStreamerLibavH264; GStreamerLibavH265;
    GStreamerVaapiH265Gst10Decoder; GStreamerMsdkH265Gst10Decoder;
    GStreamerNvdecH265Gst10Decoder; GStreamerD3d11H265Gst10Decoder;
    GStreamerVaapiH264Gst10Decoder; GStreamerMsdkH264Gst10Decoder;
    GStreamerNvdecH264Gst10Decoder; GStreamerD3d11H264Gst10Decoder;
    FluendoH265Gst10Decoder; FluendoH265Gst010Decoder;
    FluendoH264Gst10Decoder; FluendoH264Gst010Decoder;
    FluendoH264VAGst10Decoder; FluendoH265VAGst10Decoder ].

(** ** [shlex.split]

    The state machine of [shlex.read_token] as [shlex.split] configures it:
    POSIX mode, [whitespace_split] set, no comment characters and no
    punctuation characters (so the state 'c' and the [commenters] branches
    are dead and left out).  [self.state] is kept in [lex_state]; the
    variables that [read_token] resets on entry ([quoted], [escapedstate])
    and [self.token] are the other fields of [lexer]. *)

Fixpoint in_str (c : ascii) (s : string) : bool :=
  match s with
  | EmptyString => false
  | String d s' => Ascii.eqb c d || in_str c s'
  end.

(** [' \t\r\n'] *)
Definition whitespace : string :=
  String " " (String "009" (String "013" (String "010" EmptyString))).
(** The two quote characters, single and double. *)
Definition quotes : string := String "'" (String "034" EmptyString).
(** The backslash. *)
Definition escape : string := String "092" EmptyString.
(** Inside double quotes a backslash escapes. *)
Definition escapedquotes : string := String "034" EmptyString.
(** The ASCII part of [wordchars]; with [whitespace_split] a character
    outside it is added to the token by the same assignment. *)
Definition wordchars : string :=
  "abcdfeghijklmnopqrstuvwxyzABCDEFGHIJKLMNOPQRSTUVWXYZ0123456789_".

Inductive lex_state : Type :=
| S_space                 (* ' ': between tokens *)
| S_word                  (* 'a': inside a word *)
| S_quote (q : ascii)     (* a quote character: inside that quotation *)
| S_escape (e : ascii).   (* an escape character: the next one is escaped *)

Record lexer : Type := Lexer {
  state : lex_state;
  token : string;
  quoted : bool;
  escapedstate : lex_state
}.

(** The lexer on entry to [read_token] in state [st]. *)
Definition entry (st : lex_state) : lexer := Lexer st "" false S_space.

Definition nonempty (s : string) : bool :=
  match s with EmptyString => false | String _ _ => true end.

(** [token += c] *)
Definition push (tok : string) (c : ascii) : string := tok +:+ String c "".

(** [if self.token or (self.posix and quoted): break else: continue], with
    [self.state] already set to [st]: on [break] the token is returned and
    the next [read_token] starts afresh. *)
Definition break_or_continue (st : lex_state) (lx : lexer) : list string * lexer :=
  if nonempty (token lx) || quoted lx
  then ([token lx], entry st)
  else ([], Lexer st (token lx) (quoted lx) (escapedstate lx)).

(** [escapedstate in self.quotes and nextchar != escapedstate] *)
Definition quote_other_than (st : lex_state) (c : ascii) : bool :=
  match st with S_quote q => negb (Ascii.eqb c q) | _ => false end.

(** One turn of the [while True] loop on a character that was read. *)
Definition step (c : ascii) (lx : lexer) : list string * lexer :=
  let '(Lexer st tok qd esc) := lx in
  match st with
  | S_space =>
      if in_str c whitespace then break_or_continue S_space lx
      else if in_str c escape then ([], Lexer (S_escape c) tok qd S_word)
      else if in_str c wordchars then ([], Lexer S_word (String c "") qd esc)
      else if in_str c quotes then ([], Lexer (S_quote c) tok qd esc)
      else ([], Lexer S_word (String c "") qd esc)
  | S_quote q =>
      if Ascii.eqb c q then ([], Lexer S_word tok true esc)
      else if in_str c escape && in_str q escapedquotes
      then ([], Lexer (S_escape c) tok true (S_quote q))
      else ([], Lexer (S_quote q) (push tok c) true esc)
  | S_escape e =>
      let tok' :=
        if quote_other_than esc c && negb (Ascii.eqb c e) then push tok e else tok in
      ([], Lexer esc (push tok' c) qd esc)
  | S_word =>
      if in_str c whitespace then break_or_continue S_space lx
      else if in_str c quotes then ([], Lexer (S_quote c) tok qd esc)
      else if in_str c escape then ([], Lexer (S_escape c) tok qd S_word)
      else ([], Lexer S_word (push tok c) qd esc)
  end.

(** The end of the input: a word in progress is the last token, an open
    quotation or a pending escape raises. *)
Definition at_eof (lx : lexer) : exn + list string :=
  match state lx with
  | S_space | S_word =>
      inr (if nonempty (token lx) || quoted lx then [token lx] else [])
  | S_quote _ => inl (ValueError "No closing quotation")
  | S_escape _ => inl (ValueError "No escaped character")
  end.

(** [list(lex)]: the tokens of the input read from lexer [lx] on. *)
Fixpoint read_tokens (s : string) (lx : lexer) : exn + list string :=
  match s with
  | EmptyString => at_eof lx
  | String c s' =>
      let '(out, lx') := step c lx in
      res_map (app out) (read_tokens s' lx')
  end.

Definition shlex_split (s : string) : exn + list string :=
  read_tokens s (entry S_space).

(** ** What the module imports

    [fluster.codec] and [fluster.utils] are other modules of the package;
    this module only calls them, so they are parameters here.  [Env] is the
    state the process runner and the checksum act on (the file system, the
    processes).  A call that raises returns [inl]: the runner on a non-zero
    exit or a timeout, [to_gst] on a format without a GStreamer name. *)
Class Collaborators : Type := {
  Env : Type;
  PixelFormat : Type;
  (** [PixelFormat.to_gst] *)
  to_gst : PixelFormat -> exn + string;
  (** [Codec.value] *)
  codec_value : Codec -> string;
  normalize_binary_cmd : string -> exn + string;
  (** [run_command(command, timeout=..., verbose=...)]; the timeout is
      [None] where the caller leaves it to the default. *)
  run_command : list string -> option Z -> bool -> Env -> (exn + unit) * Env;
  file_checksum : string -> Env -> exn + string
}.

(** A call to one of the two functions that touch [Env]. *)
Inductive Call : Type :=
| Call_run_command (argv : list string) (timeout : option Z) (verbose : bool)
| Call_file_checksum (path : string).

(** A decoder object: its class and the attributes [__init__] sets on the
    instance; [self_cmd] is the instance attribute [cmd], which shadows the
    class attribute. *)
Record GStreamer : Type := {
  cls : GStreamerClass;
  name : string;
  description : string;
  self_cmd : string
}.

(** ** The calls of [check] and the keys of its cache

    [check] is wrapped by [functools.lru_cache], whose wrapper takes
    [*args, **kwds] and looks the call up under a key made from both.  The
    values that occur in such a key: the object (hashed and compared by
    identity), the flag, the name of a keyword argument and the sentinel
    [kwd_mark] that separates the keyword items from the positional ones. *)
Inductive PyValue : Type :=
| Py_object (ref : positive)
| Py_bool (b : bool)
| Py_str (s : string)
| Py_kwd_mark.

Global Instance PyValue_eq_dec : EqDecision PyValue.
Proof. solve_decision. Defined.

Global Instance PyValue_countable : Countable PyValue.
Proof.
  refine (inj_countable'
            (fun x => match x with
                      | Py_object r => inl (inl r)
                      | Py_bool b => inl (inr b)
                      | Py_str s => inr (inl s)
                      | Py_kwd_mark => inr (inr tt)
                      end)
            (fun y => match y with
                      | inl (inl r) => Py_object r
                      | inl (inr b) => Py_bool b
                      | inr (inl s) => Py_str s
                      | inr (inr _) => Py_kwd_mark
                      end) _).
  by intros [].
Defined.

(** [functools._make_key(args, kwds, typed=False)]: the positional
    arguments and, when there are keyword arguments, [kwd_mark] and then
    each keyword item, name and value, in the order of the call.  (The
    shortcut for a key of length one does not arise: a call that binds both
    parameters of [check] gives a longer key.) *)
Definition make_key (args : list PyValue) (kwds : list (string * PyValue))
  : list PyValue :=
  match kwds with
  | [] => args
  | _ :: _ =>
      args ++ Py_kwd_mark :: flat_map (fun item => [Py_str (fst item); snd item]) kwds
  end.

(** The ways of calling [check] that bind [self] and [verbose]:
    [obj.check(v)], [obj.check(verbose=v)], and through the class with both
    arguments by keyword, in either order. *)
Inductive CallForm : Type :=
| By_position
| By_keyword
| By_keywords_self_first
| By_keywords_verbose_first.

(** [args] and [kwds] as the wrapper receives them. *)
Definition call_args (form : CallForm) (self : positive) (verbose : bool)
  : list PyValue :=
  match form with
  | By_position => [Py_object self; Py_bool verbose]
  | By_keyword => [Py_object self]
  | By_keywords_self_first | By_keywords_verbose_first => []
  end.

Definition call_kwds (form : CallForm) (self : positive) (verbose : bool)
  : list (string * PyValue) :=
  match form with
  | By_position => []
  | By_keyword => [("verbose", Py_bool verbose)]
  | By_keywords_self_first =>
      [("self", Py_object self); ("verbose", Py_bool verbose)]
  | By_keywords_verbose_first =>
      [("verbose", Py_bool verbose); ("self", Py_object self)]
  end.

Definition call_key (form : CallForm) (self : positive) (verbose : bool)
  : list PyValue :=
  make_key (call_args form self verbose) (call_kwds form self verbose).

Section Decoder.
Context {C : Collaborators}.

(** The state of the process: the objects by identity, the cache of
    [lru_cache] around [check] (keyed by the call's arguments as
    [make_key] arranges them), the log of calls and the outer state. *)
Record World : Type := {
  heap : gmap positive GStreamer;
  check_cache : gmap (list PyValue) bool;
  calls : list Call;
  env : Env
}.

(** Computations on the process state that may raise. *)
Definition M (A : Type) : Type := World -> (exn + A) * World.

Definition ret {A} (a : A) : M A := fun w => (inr a, w).
Definition raise {A} (e : exn) : M A := fun w => (inl e, w).
Definition bind {A B} (m : M A) (k : A -> M B) : M B :=
  fun w => match m w with
           | (inl e, w') => (inl e, w')
           | (inr a, w') => k a w'
           end.
Definition lift {A} (r : exn + A) : M A := fun w => (r, w).

(** [try: body / except Exception: handler]: what the body did to the
    state before it raised stays done. *)
Definition try_except {A} (body : M A) (handler : exn -> M A) : M A :=
  fun w => match body w with
           | (inl e, w') => handler e w'
           | (inr a, w') => (inr a, w')
           end.

(** Reading the object behind a reference.  In Python a reference always
    holds an object; the error only makes the function total. *)
Definition deref (self : positive) : M GStreamer :=
  fun w => match heap w !! self with
           | Some o => (inr o, w)
           | None => (inl (ReferenceError "no such object"), w)
           end.

(** The two calls that leave the module, each entered in the log. *)
Definition call_run_command (argv : list string) (timeout : option Z)
    (verbose : bool) : M unit :=
  fun w =>
    let '(r, e') := run_command argv timeout verbose (env w) in
    (r, {| heap := heap w; check_cache := check_cache w;
           calls := calls w ++ [Call_run_command argv timeout verbose];
           env := e' |}).

Definition call_file_checksum (path : string) : M string :=
  fun w =>
    (file_checksum path (env w),
     {| heap := heap w; check_cache := check_cache w;
        calls := calls w ++ [Call_file_checksum path];
        env := env w |}).

(** *** [GStreamer.__init__] *)
Definition init (k : GStreamerClass) : exn + GStreamer :=
  let name_ :=
    provider k +:+ "-" +:+ codec_value (codec k) +:+ "-" +:+ api k
      +:+ "-Gst" +:+ gst_api k in
  let description_ :=
    provider k +:+ " " +:+ codec_value (codec k) +:+ " " +:+ api k
      +:+ " decoder for GStreamer " +:+ gst_api k in
  res_bind (normalize_binary_cmd (cmd k)) (fun cmd_ =>
  inr {| cls := k; name := name_; description := description_;
         self_cmd := cmd_ |}).

(** Calling the class: a new object, initialised; when [__init__] raises
    no object is left behind. *)
Definition new (k : GStreamerClass) : M positive :=
  fun w => match init k with
           | inl e => (inl e, w)
           | inr o =>
               let i := fresh (dom (heap w)) in
               (inr i, {| heap := <[i := o]> (heap w);
                          check_cache := check_cache w;
                          calls := calls w; env := env w |})
           end.

(** *** [gen_pipeline] *)

(** [GStreamer.gen_pipeline]: [output_format] is not used. *)
Definition GStreamer_gen_pipeline (o : GStreamer) (input_filepath
    output_filepath : string) (output_format : PixelFormat) : exn + string :=
  format PIPELINE_TPL
    [self_cmd o; input_filepath; decoder_bin (cls o); caps (cls o);
     output_filepath].

(** [GStreamer10.gen_pipeline] *)
Definition GStreamer10_gen_pipeline (o : GStreamer) (input_filepath
    output_filepath : string) (output_format : PixelFormat) : exn + string :=
  res_bind (to_gst output_format) (fun fmt =>
  let caps_ :=
    caps (cls o) +:+ " ! videoconvert dither=none ! video/x-raw,format=" +:+ fmt in
  format PIPELINE_TPL
    [self_cmd o; input_filepath; decoder_bin (cls o); caps_; output_filepath]).

(** [self.gen_pipeline(...)]: the method of the object's class. *)
Definition gen_pipeline (self : positive) (input_filepath output_filepath : string)
    (output_format : PixelFormat) : M string :=
  bind (deref self) (fun o =>
  lift (match builder (cls o) with
        | Builder_GStreamer =>
            GStreamer_gen_pipeline o input_filepath output_filepath output_format
        | Builder_GStreamer10 =>
            GStreamer10_gen_pipeline o input_filepath output_filepath output_format
        end)).

(** *** [decode] *)
Definition decode (self : positive) (input_filepath output_filepath : string)
    (output_format : PixelFormat) (timeout : Z) (verbose : bool) : M string :=
  bind (gen_pipeline self input_filepath output_filepath output_format)
    (fun pipeline =>
  bind (lift (shlex_split pipeline)) (fun argv =>
  bind (call_run_command argv (Some timeout) verbose) (fun _ =>
  call_file_checksum output_filepath))).

(** *** [check] *)

(** The command line of the probe: the two statements of the [try] block
    that come before the runner is called. *)
Definition probe_argv (o : GStreamer) : exn + list string :=
  res_bind (normalize_binary_cmd ("gst-launch-" +:+ gst_api (cls o)))
    (fun binary =>
  let pipeline :=
    binary +:+ " appsrc num-buffers=0 ! " +:+ decoder_bin (cls o) +:+ " ! fakesink" in
  shlex_split pipeline).

(** The body of the [try] block. *)
Definition probe (self : positive) (verbose : bool) : M unit :=
  bind (deref self) (fun o =>
  bind (lift (probe_argv o)) (fun argv =>
  call_run_command argv None verbose)).

(** The function under the decorator. *)
Definition check_body (self : positive) (verbose : bool) : M bool :=
  try_except (bind (probe self verbose) (fun _ => ret true))
             (fun _ => ret false).

(** [lru_cache(maxsize=None)]: the wrapper makes the key of the call; a
    result found under the key is returned without a call of the function;
    otherwise the function is called with the arguments, and a result
    computed is stored under the key, an exception is not. *)
Definition lru_cache (f : positive -> bool -> M bool) (form : CallForm)
    (self : positive) (verbose : bool) : M bool :=
  fun w => match check_cache w !! call_key form self verbose with
           | Some b => (inr b, w)
           | None =>
               match f self verbose w with
               | (inr b, w') =>
                   (inr b, {| heap := heap w';
                              check_cache :=
                                <[call_key form self verbose := b]> (check_cache w');
                              calls := calls w'; env := env w' |})
               | (inl e, w') => (inl e, w')
               end
           end.

(** [check], called in the given form. *)
Definition check : CallForm -> positive -> bool -> M bool := lru_cache check_body.

End Decoder.

(** The pipeline an object's [gen_pipeline] returns, without the heap. *)
Definition pipeline_of {C : Collaborators} (o : GStreamer) (input_filepath
    output_filepath : string) (output_format : PixelFormat) : exn + string :=
  match builder (cls o) with
  | Builder_GStreamer =>
      GStreamer_gen_pipeline o input_filepath output_filepath output_format
  | Builder_GStreamer10 =>
      GStreamer10_gen_pipeline o input_filepath output_filepath output_format
  end.

(** [shlex.split(pipeline)] as [decode] passes it to the runner. *)
Definition argv_of {C : Collaborators} (o : GStreamer) (input_filepath
    output_filepath : string) (output_format : PixelFormat) : exn + list string :=
  res_bind (pipeline_of o input_filepath output_filepath output_format) shlex_split.

(** ** The pipeline written with single spaces

    The reference that the padding of [decoder_bin] is compared with: the
    same object with the spaces at both ends of its fragment removed, so
    that the template's own separators are the only spaces around it. *)
Fixpoint lstrip (s : string) : string :=
  match s with
  | String " "%char s' => lstrip s'
  | _ => s
  end.

Fixpoint rstrip (s : string) : string :=
  match s with
  | EmptyString => EmptyString
  | String c s' =>
      match c, rstrip s' with
      | " "%char, EmptyString => EmptyString
      | _, r => String c r
      end
  end.

Definition strip (s : string) : string := lstrip (rstrip s).

Definition with_decoder_bin (bin : string) (k : GStreamerClass) : GStreamerClass :=
  {| builder := builder k; codec := codec k; decoder_bin := bin;
     cmd := cmd k; caps := caps k; gst_api := gst_api k; api := api k;
     provider := provider k; hw_acceleration := hw_acceleration k |}.

Definition single_spaced (o : GStreamer) : GStreamer :=
  {| cls := with_decoder_bin (strip (decoder_bin (cls o))) (cls o);
     name := name o; description := description o; self_cmd := self_cmd o |}.

(** Running the lexer over a piece of the input: the tokens completed and
    the lexer after the piece. *)
Fixpoint feed (s : string) (lx : lexer) : list string * lexer :=
  match s with
  | EmptyString => ([], lx)
  | String c s' =>
      let '(out, lx') := step c lx in
      let '(out', lx'') := feed s' lx' in
      (out ++ out', lx'')
  end.

(** No quotation and no escape is open after [s] is read from the start. *)
Definition closed_after (s : string) : bool :=
  match state (snd (feed s (entry S_space))) with
  | S_space | S_word => true
  | S_quote _ | S_escape _ => false
  end.

(** Python's [needle in s] on strings. *)
Fixpoint occurs (needle s : string) : bool :=
  String.prefix needle s ||
  match s with
  | EmptyString => false
  | String _ s' => occurs needle s'
  end.

(** ** Stand-ins for the imported modules, for running the model

    A file system of byte sequences; a runner given as a function on it; a
    checksum that applies a digest to the bytes of the file and raises
    [IOError] when there is none. *)

(** Modelled from the spec: [fluster.codec.PixelFormat] is not in this
    module; the spec names one format, FORMAT_I420, whose GStreamer name is
    I420. *)
Inductive SpecPixelFormat : Type := FORMAT_I420.

(** Modelled from the spec: the values of [fluster.codec.Codec] are not in
    this module; the spec lists the members H264 and H265. *)
Definition spec_codec_value (c : Codec) : string :=
  match c with H264 => "H264" | H265 => "H265" end.

Definition checksum_with (digest : list Byte.byte -> string) (path : string)
    (fs : gmap string (list Byte.byte)) : exn + string :=
  match fs !! path with
  | Some bytes => inr (digest bytes)
  | None => inl (IOError path)
  end.

Definition stand_in (digest : list Byte.byte -> string)
    (runner : list string -> option Z -> bool ->
              gmap string (list Byte.byte) ->
              (exn + unit) * gmap string (list Byte.byte))
  : Collaborators :=
  {| Env := gmap string (list Byte.byte);
     PixelFormat := SpecPixelFormat;
     to_gst := fun _ => inr "I420";
     codec_value := spec_codec_value;
     normalize_binary_cmd := fun s => inr s;
     run_command := runner;
     file_checksum := checksum_with digest |}.

(** A runner that always succeeds and writes [bytes] to [path]. *)
Definition writing_runner (path : string) (bytes : list Byte.byte)
    (argv : list string) (timeout : option Z) (verbose : bool)
    (fs : gmap string (list Byte.byte))
  : (exn + unit) * gmap string (list Byte.byte) :=
  (inr tt, <[path := bytes]> fs).

(** A runner that always times out. *)
Definition timing_out_runner (argv : list string) (timeout : option Z)
    (verbose : bool) (fs : gmap string (list Byte.byte))
  : (exn + unit) * gmap string (list Byte.byte) :=
  (inl (TimeoutError (String.concat " " argv)), fs).

(** A runner that reports a non-zero exit. *)
Definition failing_runner (argv : list string) (timeout : option Z)
    (verbose : bool) (fs : gmap string (list Byte.byte))
  : (exn + unit) * gmap string (list Byte.byte) :=
  (inl (ProcessError "exit status 1"), fs).

(** A digest for running examples: the bytes themselves, as text. *)
Definition sample_digest (bytes : list Byte.byte) : string :=
  String.string_of_list_byte bytes.

Definition sample_bytes : list Byte.byte := [Byte.x66; Byte.x6c; Byte.x75].

(** The process before any object exists. *)
Definition empty_world {C : Collaborators} (e : Env) : World :=
  {| heap := ∅; check_cache := ∅; calls := []; env := e |}.

(** The world after the class [k] was instantiated in the empty process,
    with the reference to the object. *)
Definition world_with {C : Collaborators} (k : GStreamerClass) (e : Env)
  : (exn + positive) * World :=
  new k (empty_world e).

(** ** Definitions that the statements use *)

(** The object the example of the spec is about: command [tool-1.0], the
    Libav H.264 fragment, the caps of GStreamer 1.0. *)
Definition tool_class : GStreamerClass :=
  {| builder := Builder_GStreamer10; codec := H264;
     decoder_bin := " h264parse ! avdec_h264 "; cmd := "tool-1.0";
     caps := "video/x-raw"; gst_api := "1.0"; api := "Libav";
     provider := "GStreamer"; hw_acceleration := Some false |}.

(** Stand-ins whose runner fails, times out, or writes the output file. *)
Definition quiet : Collaborators := stand_in sample_digest failing_runner.

(** A word that cannot overlap the text of the template between the
    fields: it has no space and no [=] and occurs in none of the template's
    words. *)
Definition template_free (n : string) : bool :=
  negb (in_str " " n) && negb (in_str "=" n) &&
  negb (occurs n "filesrc") && negb (occurs n "location") &&
  negb (occurs n "!") && negb (occurs n "filesink").

Definition slow : Collaborators := stand_in sample_digest timing_out_runner.

Definition writing : Collaborators :=
  stand_in sample_digest (writing_runner "out.raw" sample_bytes).

(** What the rest of the process may do between two calls of [check]:
    construct objects and call their methods. *)
Inductive Op {C : Collaborators} : Type :=
| Op_new (k : GStreamerClass)
| Op_gen_pipeline (self : positive) (i out : string) (fmt : PixelFormat)
| Op_decode (self : positive) (i out : string) (fmt : PixelFormat) (t : Z) (v : bool)
| Op_check (form : CallForm) (self : positive) (v : bool).

(** The state after an operation, whatever it returned or raised. *)
Definition exec_op {C : Collaborators} (op : Op) (w : World) : World :=
  match op with
  | Op_new k => snd (new k w)
  | Op_gen_pipeline self i out fmt => snd (gen_pipeline self i out fmt w)
  | Op_decode self i out fmt t v => snd (decode self i out fmt t v w)
  | Op_check form self v => snd (check form self v w)
  end.

Definition exec_ops {C : Collaborators} (ops : list Op) (w : World) : World :=
  fold_left (λ w op, exec_op op w) ops w.

(** A decoder class outside the module whose fragment opens a quotation
    that it does not close. *)
Definition unbalanced_class : GStreamerClass :=
  GStreamer10 H264 " h264parse ! avdec_h264 name='dec " "Libav" (Some false).

(** The parts of a name around the codec value. *)
Definition name_prefix (k : GStreamerClass) : string := provider k +:+ "-".
Definition name_suffix (k : GStreamerClass) : string :=
  "-" +:+ api k +:+ "-Gst" +:+ gst_api k.

Global Instance Codec_eq_dec : EqDecision Codec.
Proof. solve_decision. Defined.

(** What distinguishes the registered classes. *)
Definition name_key (k : GStreamerClass) : string * Codec * string :=
  (name_prefix k, codec k, name_suffix k).

Definition first_char (s : string) : option ascii :=
  match s with EmptyString => None | String c _ => Some c end.

(** The last [n] characters. *)
Definition last_chars (n : nat) (l : list ascii) : list ascii :=
  drop (length l - n) l.

(** Two classes whose names can coincide for some codec values: the
    prefixes start alike and the shorter suffix ends the longer. *)
Definition may_collide (k1 k2 : GStreamerClass) : bool :=
  let s1 := list_ascii_of_string (name_suffix k1) in
  let s2 := list_ascii_of_string (name_suffix k2) in
  let n := length s1 `min` length s2 in
  bool_decide (first_char (name_prefix k1) = first_char (name_prefix k2)) &&
  bool_decide (last_chars n s1 = last_chars n s2).

Definition same_frame (k1 k2 : GStreamerClass) : bool :=
  bool_decide (name_prefix k1 = name_prefix k2) &&
  bool_decide (name_suffix k1 = name_suffix k2).

Global Instance lex_state_eq_dec : EqDecision lex_state.
Proof. solve_decision. Defined.
Global Instance lexer_eq_dec : EqDecision lexer.
Proof. solve_decision. Defined.

(** A string without quote and escape characters. *)
Fixpoint plain (s : string) : bool :=
  match s with
  | EmptyString => true
  | String c s' => negb (in_str c quotes) && negb (in_str c escape) && plain s'
  end.

(** The object that [GStreamerLibavH264()] constructs under the stand-ins. *)
Definition libav_h264_object : GStreamer :=
  {| cls := GStreamerLibavH264; name := "GStreamer-H264-Libav-Gst1.0";
     description := "GStreamer H264 Libav decoder for GStreamer 1.0";
     self_cmd := "gst-launch-1.0" |}.

(** A character that is neither whitespace, nor a quote, nor the escape. *)
Definition bare_char (c : ascii) : bool :=
  negb (in_str c whitespace) && negb (in_str c quotes) && negb (in_str c escape).

(** A string made of such characters: one word for the lexer, or none. *)
Fixpoint bare (s : string) : bool :=
  match s with
  | EmptyString => true
  | String c s' => bare_char c && bare s'
  end.

(** A word: bare and not empty. *)
Definition word (s : string) : bool := nonempty s && bare s.

(** The tokens of the stage after the decoder fragment: the caps of the
    class and, for the GStreamer 1.0 builder, the conversion to the format
    named [tok]. *)
Definition caps_tokens (o : GStreamer) (tok : string) : list string :=
  match builder (cls o) with
  | Builder_GStreamer => [caps (cls o)]
  | Builder_GStreamer10 =>
      [caps (cls o); "!"; "videoconvert"; "dither=none"; "!";
       "video/x-raw,format=" +:+ tok]
  end.

(** The command line of [decode] when every part is a word. *)
Definition decode_argv (o : GStreamer) (i out tok : string) : list string :=
  [self_cmd o; "filesrc"; "location=" +:+ i; "!"]
    ++ String.words (decoder_bin (cls o))
    ++ ["!"] ++ caps_tokens o tok ++ ["!"; "filesink"; "location=" +:+ out].

Definition noisy : Collaborators :=
  stand_in sample_digest (writing_runner "probe.log" sample_bytes).

(** Stand-ins under which no format has a GStreamer name. *)
Definition unnamed_formats : Collaborators :=
  {| Env := gmap string (list Byte.byte);
     PixelFormat := SpecPixelFormat;
     to_gst := fun _ => inl (UnsupportedFormatError "no matching pixel format");
     codec_value := spec_codec_value;
     normalize_binary_cmd := fun s => inr s;
     run_command := writing_runner "out.raw" sample_bytes;
     file_checksum := checksum_with sample_digest |}.

(** A probe, a second object and a decode. *)
Definition sample_ops : list (Op (C := noisy)) :=
  [Op_check By_keyword 1%positive false; Op_new GStreamerLibavH265;
   Op_decode (C := noisy) 1%positive "in.bin" "out.raw" FORMAT_I420 30%Z true].

(** * Properties *)

(** ** The lexer on examples *)

Example shlex_split_ex1 :
  shlex_split "a 'b  c' d\ e  f" = inr ["a"; "b  c"; "d e"; "f"].
Proof. reflexivity. Qed.
Example shlex_split_ex2 : shlex_split "a '' b" = inr ["a"; ""; "b"].
Proof. reflexivity. Qed.
Example shlex_split_ex3 : shlex_split "a 'b" = inl (ValueError "No closing quotation").
Proof. reflexivity. Qed.
Example shlex_split_ex4 : shlex_split " x=1 !  y  " = inr ["x=1"; "!"; "y"].
Proof. reflexivity. Qed.

(** ** Strings and results *)

Lemma append_nil_r (s : string) : s +:+ "" = s.
Proof. induction s as [|c s IH]; [done|]. unfold String.app; simpl. by f_equal. Qed.

Lemma append_assoc (s1 s2 s3 : string) : (s1 +:+ s2) +:+ s3 = s1 +:+ s2 +:+ s3.
Proof.
  induction s1 as [|c s1 IH]; [done|]. unfold String.app in *; simpl. by f_equal.
Qed.

Lemma append_cons (c : ascii) (s1 s2 : string) :
  String c s1 +:+ s2 = String c (s1 +:+ s2).
Proof. done. Qed.

Lemma format_PIPELINE_TPL (a b c d e : string) :
  format PIPELINE_TPL [a; b; c; d; e] =
  inr (a +:+ " filesrc location=" +:+ b +:+ " ! " +:+ c +:+ " ! " +:+ d
         +:+ " ! filesink location=" +:+ e).
Proof.
  rewrite <- (append_nil_r e) at 2. reflexivity.
Qed.

Section Builders.
Context {C : Collaborators}.

Lemma gen_pipeline_deref self o i out fmt w :
  heap w !! self = Some o →
  gen_pipeline self i out fmt w = (pipeline_of o i out fmt, w).
Proof.
  intros Ho. unfold gen_pipeline, bind, deref, lift, pipeline_of. by rewrite Ho.
Qed.

Lemma GStreamer_gen_pipeline_eq o i out fmt :
  GStreamer_gen_pipeline o i out fmt =
  inr (self_cmd o +:+ " filesrc location=" +:+ i +:+ " ! "
         +:+ decoder_bin (cls o) +:+ " ! " +:+ caps (cls o)
         +:+ " ! filesink location=" +:+ out).
Proof. apply format_PIPELINE_TPL. Qed.

Lemma GStreamer10_gen_pipeline_eq o i out fmt tok :
  to_gst fmt = inr tok →
  GStreamer10_gen_pipeline o i out fmt =
  inr (self_cmd o +:+ " filesrc location=" +:+ i +:+ " ! "
         +:+ decoder_bin (cls o) +:+ " ! "
         +:+ (caps (cls o) +:+ " ! videoconvert dither=none ! video/x-raw,format=" +:+ tok)
         +:+ " ! filesink location=" +:+ out).
Proof.
  intros Htok. unfold GStreamer10_gen_pipeline. rewrite Htok. apply format_PIPELINE_TPL.
Qed.
End Builders.

(** C1 (as amended): on an object of the GStreamer 1.0 family whose command
    is [tool-1.0], whose decoder fragment is [ h264parse ! avdec_h264 ] with
    its leading and trailing space, and whose caps are [video/x-raw],
    [gen_pipeline] for [in.bin], [out.raw] and a format named I420 returns
    the template with the fragment as it is: two spaces on either side of
    the fragment.  The state is left as it was. *)
Theorem gen_pipeline_tool_example {C : Collaborators} (w : World)
    (self : positive) (o : GStreamer) (fmt : PixelFormat) :
  heap w !! self = Some o →
  builder (cls o) = Builder_GStreamer10 →
  self_cmd o = "tool-1.0" →
  decoder_bin (cls o) = " h264parse ! avdec_h264 " →
  caps (cls o) = "video/x-raw" →
  to_gst fmt = inr "I420" →
  gen_pipeline self "in.bin" "out.raw" fmt w =
  (inr "tool-1.0 filesrc location=in.bin !  h264parse ! avdec_h264  ! video/x-raw ! videoconvert dither=none ! video/x-raw,format=I420 ! filesink location=out.raw",
   w).
Proof.
  intros Ho Hb Hcmd Hbin Hcaps Hfmt.
  rewrite (gen_pipeline_deref _ o) by done.
  unfold pipeline_of. rewrite Hb.
  rewrite (GStreamer10_gen_pipeline_eq _ _ _ _ "I420") by done.
  rewrite Hcmd, Hbin, Hcaps. reflexivity.
Qed.

Lemma gen_pipeline_tool_example_witness :
  gen_pipeline (C := quiet) 1%positive "in.bin" "out.raw" FORMAT_I420
    (snd (world_with (C := quiet) tool_class ∅)) =
  (inr "tool-1.0 filesrc location=in.bin !  h264parse ! avdec_h264  ! video/x-raw ! videoconvert dither=none ! video/x-raw,format=I420 ! filesink location=out.raw",
   snd (world_with (C := quiet) tool_class ∅)).
Proof.
  apply (gen_pipeline_tool_example (C := quiet) _ 1%positive
           {| cls := tool_class; name := "GStreamer-H264-Libav-Gst1.0";
              description := "GStreamer H264 Libav decoder for GStreamer 1.0";
              self_cmd := "tool-1.0" |}); reflexivity.
Defined.

Lemma gen_pipeline_tool_example_single_spaced_fails :
  fst (gen_pipeline (C := quiet) 1%positive "in.bin" "out.raw" FORMAT_I420
         (snd (world_with (C := quiet) tool_class ∅))) ≠
  inr "tool-1.0 filesrc location=in.bin ! h264parse ! avdec_h264 ! video/x-raw ! videoconvert dither=none ! video/x-raw,format=I420 ! filesink location=out.raw".
Proof. vm_compute. discriminate. Qed.
(** ** Occurrences of a word in a pipeline *)

Lemma prefix_nil (s : string) : String.prefix "" s = true.
Proof. by destruct s. Qed.

Lemma occurs_prefix (n s : string) : String.prefix n s = true → occurs n s = true.
Proof. intros H. destruct s; cbn [occurs]; by rewrite H. Qed.

Lemma occurs_tail (n : string) (c : ascii) (s : string) :
  occurs n s = true → occurs n (String c s) = true.
Proof. intros H. cbn [occurs]. rewrite H. apply orb_true_r. Qed.

Lemma occurs_cons (n : string) (c : ascii) (s : string) :
  occurs n (String c s) = true →
  String.prefix n (String c s) = true ∨ occurs n s = true.
Proof. cbn [occurs]. intros H. by apply orb_true_iff in H. Qed.

Lemma prefix_sep (c : ascii) (n x y : string) :
  in_str c n = false →
  String.prefix n (x +:+ String c y) = true → String.prefix n x = true.
Proof.
  revert x. induction n as [|a n IH]; intros x Hc Hp; [apply prefix_nil|].
  simpl in Hc. apply orb_false_elim in Hc as [Hca Hn].
  destruct x as [|b x]; unfold String.app in *; simpl in *.
  - destruct (ascii_dec a c) as [->|]; [|done].
    by rewrite Ascii.eqb_refl in Hca.
  - destruct (ascii_dec a b); [|done]. by apply IH.
Qed.

(** A word that does not contain the character [c] and occurs in
    [x c y] occurs in [x] or in [y]. *)
Lemma occurs_sep (c : ascii) (n x y : string) :
  in_str c n = false →
  occurs n (x +:+ String c y) = true → occurs n x = true ∨ occurs n y = true.
Proof.
  intros Hc. induction x as [|b x IH]; intros Ho.
  - change ("" +:+ String c y) with (String c y) in Ho.
    apply occurs_cons in Ho as [Hp|Ho]; [|by right].
    left. apply occurs_prefix. by apply (prefix_sep c n "" y).
  - change (String b x +:+ String c y) with (String b (x +:+ String c y)) in Ho.
    apply occurs_cons in Ho as [Hp|Ho].
    + left. apply occurs_prefix. by apply (prefix_sep c n (String b x) y).
    + destruct (IH Ho) as [H|H]; [left|by right]. by apply occurs_tail.
Qed.

Lemma occurs_in_template (n a b c d e : string) :
  template_free n = true →
  occurs n (a +:+ " filesrc location=" +:+ b +:+ " ! " +:+ c +:+ " ! " +:+ d
              +:+ " ! filesink location=" +:+ e) = true →
  Exists (λ s, occurs n s = true) [a; b; c; d; e].
Proof.
  unfold template_free. rewrite !andb_true_iff, !negb_true_iff.
  intros [[[[[Hsp Heq] H1] H2] H3] H4] Ho.
  apply (occurs_sep " ") in Ho as [Ho|Ho]; [by apply Exists_cons_hd| |done].
  apply (occurs_sep " " n "filesrc") in Ho as [Ho|Ho]; [congruence| |done].
  apply (occurs_sep "=" n "location") in Ho as [Ho|Ho]; [congruence| |done].
  apply (occurs_sep " ") in Ho as [Ho|Ho]; [by do 1 apply Exists_cons_tl; apply Exists_cons_hd| |done].
  apply (occurs_sep " " n "!") in Ho as [Ho|Ho]; [congruence| |done].
  apply (occurs_sep " ") in Ho as [Ho|Ho]; [by do 2 apply Exists_cons_tl; apply Exists_cons_hd| |done].
  apply (occurs_sep " " n "!") in Ho as [Ho|Ho]; [congruence| |done].
  apply (occurs_sep " ") in Ho as [Ho|Ho]; [by do 3 apply Exists_cons_tl; apply Exists_cons_hd| |done].
  apply (occurs_sep " " n "!") in Ho as [Ho|Ho]; [congruence| |done].
  apply (occurs_sep " " n "filesink") in Ho as [Ho|Ho]; [congruence| |done].
  apply (occurs_sep "=" n "location") in Ho as [Ho|Ho]; [congruence| |done].
  by do 4 apply Exists_cons_tl; apply Exists_cons_hd.
Qed.

(** ** The builder of the GStreamer 0.10 family *)

(** C2: on an object whose class inherits [GStreamer.gen_pipeline] (the
    GStreamer 0.10 family), for every input path and output path the call
    succeeds, leaves the state as it was and returns the same string for
    any two output formats; the string is the template filled with the
    command, the input path, the decoder fragment, the caps and the output
    path, with no stage added: the word [videoconvert] or [format] occurs
    in it only where one of these five strings contains it. *)
Theorem gen_pipeline_legacy_ignores_format {C : Collaborators} (w : World)
    (self : positive) (o : GStreamer) (i out : string) :
  heap w !! self = Some o →
  builder (cls o) = Builder_GStreamer →
  (∀ f1 f2 : PixelFormat,
     gen_pipeline self i out f1 w = gen_pipeline self i out f2 w) ∧
  (∀ fmt : PixelFormat, ∃ p : string,
     gen_pipeline self i out fmt w = (inr p, w) ∧
     p = self_cmd o +:+ " filesrc location=" +:+ i +:+ " ! "
           +:+ decoder_bin (cls o) +:+ " ! " +:+ caps (cls o)
           +:+ " ! filesink location=" +:+ out ∧
     ∀ word : string, word = "videoconvert" ∨ word = "format" →
       occurs word p = true →
       Exists (λ s, occurs word s = true)
         [self_cmd o; i; decoder_bin (cls o); caps (cls o); out]).
Proof.
  intros Ho Hb. split.
  - intros f1 f2. rewrite !(gen_pipeline_deref _ o) by done.
    unfold pipeline_of. by rewrite Hb.
  - intros fmt. eexists. rewrite (gen_pipeline_deref _ o) by done.
    unfold pipeline_of. rewrite Hb, GStreamer_gen_pipeline_eq.
    split; [reflexivity|]. split; [reflexivity|].
    intros word Hword. apply occurs_in_template.
    by destruct Hword as [-> | ->].
Qed.

Lemma gen_pipeline_legacy_ignores_format_witness :
  (∀ f1 f2 : SpecPixelFormat,
     gen_pipeline (C := quiet) 1%positive "in.bin" "out.raw" f1
       (snd (world_with (C := quiet) FluendoH264Gst010Decoder ∅)) =
     gen_pipeline (C := quiet) 1%positive "in.bin" "out.raw" f2
       (snd (world_with (C := quiet) FluendoH264Gst010Decoder ∅))) ∧
  occurs "videoconvert"
    "gst-launch-0.10 filesrc location=in.bin !  fluh264dec  ! video/x-raw-yuv ! filesink location=out.raw"
  = false.
Proof.
  split; [|reflexivity].
  apply (gen_pipeline_legacy_ignores_format (C := quiet)
           (snd (world_with (C := quiet) FluendoH264Gst010Decoder ∅))
           1%positive
           {| cls := FluendoH264Gst010Decoder; name := "Fluendo-H264-SW-Gst0.10";
              description := "Fluendo H264 SW decoder for GStreamer 0.10";
              self_cmd := "gst-launch-0.10" |} "in.bin" "out.raw");
    reflexivity.
Defined.

(** ** Construction *)

(** C8: constructing an object of a decoder class gives it the name
    [<provider>-<codec value>-<api>-Gst<gst_api>] and the description
    [<provider> <codec value> <api> decoder for GStreamer <gst_api>], built
    from the attributes of its class. *)
Theorem new_name_description {C : Collaborators} (k : GStreamerClass)
    (w w' : World) (self : positive) :
  new k w = (inr self, w') →
  ∃ o : GStreamer,
    heap w' !! self = Some o ∧ cls o = k ∧
    name o =
      String.concat "-"
        [provider k; codec_value (codec k); api k; "Gst" +:+ gst_api k] ∧
    description o =
      String.concat " "
        [provider k; codec_value (codec k); api k; "decoder"; "for";
         "GStreamer"; gst_api k].
Proof.
  unfold new, init. destruct (normalize_binary_cmd (cmd k)) as [e|c]; simpl; [done|].
  intros [= <- <-]. eexists. simpl. rewrite lookup_insert_eq.
  split; [reflexivity|]. simpl. done.
Qed.

Lemma new_name_description_witness :
  ∃ o : GStreamer,
    heap (snd (world_with (C := quiet) GStreamerVaapiH265Gst10Decoder ∅)) !! 1%positive
      = Some o ∧
    cls o = GStreamerVaapiH265Gst10Decoder ∧
    name o = "GStreamer-H265-VAAPI-Gst1.0" ∧
    description o = "GStreamer H265 VAAPI decoder for GStreamer 1.0".
Proof.
  apply (new_name_description (C := quiet) GStreamerVaapiH265Gst10Decoder
           (empty_world (C := quiet) ∅)).
  reflexivity.
Defined.

(** ** Purity of the builders *)

Lemma gen_pipeline_state {C : Collaborators} (w : World) (self : positive)
    (i out : string) (fmt : PixelFormat) :
  snd (gen_pipeline self i out fmt w) = w.
Proof.
  unfold gen_pipeline, bind, deref, lift. by destruct (heap w !! self).
Qed.

(** C9: [gen_pipeline] leaves the state of the process, the object
    included, as it was; a second call with the same arguments returns the
    same result; and the result is the same in any other state in which the
    reference holds the same object, so it is a function of the object's
    attributes and the three arguments. *)
Theorem gen_pipeline_pure {C : Collaborators} (w : World) (self : positive)
    (i out : string) (fmt : PixelFormat) :
  snd (gen_pipeline self i out fmt w) = w ∧
  gen_pipeline self i out fmt (snd (gen_pipeline self i out fmt w)) =
    gen_pipeline self i out fmt w ∧
  ∀ w' : World, heap w' !! self = heap w !! self →
    fst (gen_pipeline self i out fmt w') = fst (gen_pipeline self i out fmt w).
Proof.
  split; [apply gen_pipeline_state|]. split; [by rewrite gen_pipeline_state|].
  intros w' Hw'. unfold gen_pipeline, bind, deref, lift. rewrite Hw'.
  by destruct (heap w !! self).
Qed.

Lemma gen_pipeline_pure_witness :
  fst (gen_pipeline (C := quiet) 1%positive "in.bin" "out.raw" FORMAT_I420
         (snd (check (C := quiet) By_position 1%positive false
                 (snd (world_with (C := quiet) GStreamerLibavH264 ∅))))) =
  fst (gen_pipeline (C := quiet) 1%positive "in.bin" "out.raw" FORMAT_I420
         (snd (world_with (C := quiet) GStreamerLibavH264 ∅))).
Proof.
  apply (gen_pipeline_pure (C := quiet)
           (snd (world_with (C := quiet) GStreamerLibavH264 ∅)) 1%positive
           "in.bin" "out.raw" FORMAT_I420).
  reflexivity.
Defined.

(** ** [decode] *)

Section Decode.
Context {C : Collaborators}.

(** [decode] up to the call of the runner. *)
Lemma decode_run w self o i out fmt t v argv :
  heap w !! self = Some o →
  argv_of o i out fmt = inr argv →
  decode self i out fmt t v w =
  bind (call_run_command argv (Some t) v) (λ _, call_file_checksum out) w.
Proof.
  intros Ho Hargv. unfold decode, bind at 1.
  rewrite (gen_pipeline_deref _ o) by done.
  unfold argv_of in Hargv.
  destruct (pipeline_of o i out fmt) as [e|p]; simpl in Hargv; [done|].
  unfold bind at 1, lift. by rewrite Hargv.
Qed.
End Decode.

(** C3: when the runner, called by [decode] with the command line of the
    pipeline, raises [TimeoutError], [decode] raises that same error; the
    only call it has made is the one to the runner, so the checksum function
    was not called and the output file was not read, and the state is the
    one the runner left. *)
Theorem decode_timeout {C : Collaborators} (w : World) (self : positive)
    (o : GStreamer) (i out : string) (fmt : PixelFormat) (t : Z) (v : bool)
    (argv : list string) (msg : string) (e' : Env) :
  heap w !! self = Some o →
  argv_of o i out fmt = inr argv →
  run_command argv (Some t) v (env w) = (inl (TimeoutError msg), e') →
  decode self i out fmt t v w =
  (inl (TimeoutError msg),
   {| heap := heap w; check_cache := check_cache w;
      calls := calls w ++ [Call_run_command argv (Some t) v];
      env := e' |}).
Proof.
  intros Ho Hargv Hrun. rewrite (decode_run _ _ o _ _ _ _ _ argv) by done.
  unfold bind, call_run_command. by rewrite Hrun.
Qed.

Lemma decode_timeout_witness :
  fst (decode (C := slow) 1%positive "in.bin" "out.raw" FORMAT_I420 30%Z false
         (snd (world_with (C := slow) GStreamerLibavH264 ∅))) =
  inl (TimeoutError "gst-launch-1.0 filesrc location=in.bin ! h264parse ! avdec_h264 ! video/x-raw ! videoconvert dither=none ! video/x-raw,format=I420 ! filesink location=out.raw").
Proof.
  rewrite (decode_timeout (C := slow)
             (snd (world_with (C := slow) GStreamerLibavH264 ∅)) 1%positive
             libav_h264_object
             "in.bin" "out.raw" FORMAT_I420 30%Z false
             ["gst-launch-1.0"; "filesrc"; "location=in.bin"; "!"; "h264parse";
              "!"; "avdec_h264"; "!"; "video/x-raw"; "!"; "videoconvert";
              "dither=none"; "!"; "video/x-raw,format=I420"; "!"; "filesink";
              "location=out.raw"]
             "gst-launch-1.0 filesrc location=in.bin ! h264parse ! avdec_h264 ! video/x-raw ! videoconvert dither=none ! video/x-raw,format=I420 ! filesink location=out.raw"
             ∅); reflexivity.
Defined.

(** C5: when the runner, called by [decode], succeeds, [decode] returns
    what [file_checksum] gives for the output path in the state the runner
    left, having called the runner and then the checksum; in particular,
    with a runner that always succeeds and writes a fixed byte sequence to
    the output path and a checksum that applies a digest to the bytes of the
    file, [decode] returns the digest of that sequence. *)
Theorem decode_returns_checksum :
  (∀ (C : Collaborators) (w : World) (self : positive) (o : GStreamer)
     (i out : string) (fmt : PixelFormat) (t : Z) (v : bool)
     (argv : list string) (e' : Env),
     heap w !! self = Some o →
     argv_of o i out fmt = inr argv →
     run_command argv (Some t) v (env w) = (inr tt, e') →
     decode self i out fmt t v w =
     (file_checksum out e',
      {| heap := heap w; check_cache := check_cache w;
         calls := calls w ++ [Call_run_command argv (Some t) v;
                              Call_file_checksum out];
         env := e' |})) ∧
  (∀ (digest : list Byte.byte → string) (bytes : list Byte.byte)
     (i out : string) (w : World (C := stand_in digest (writing_runner out bytes)))
     (self : positive) (o : GStreamer) (fmt : SpecPixelFormat) (t : Z)
     (v : bool) (argv : list string),
     heap w !! self = Some o →
     argv_of (C := stand_in digest (writing_runner out bytes)) o i out fmt
       = inr argv →
     fst (decode (C := stand_in digest (writing_runner out bytes))
            self i out fmt t v w) = inr (digest bytes)).
Proof.
  assert (H1 : ∀ (C : Collaborators) (w : World) (self : positive) (o : GStreamer)
     (i out : string) (fmt : PixelFormat) (t : Z) (v : bool)
     (argv : list string) (e' : Env),
     heap w !! self = Some o →
     argv_of o i out fmt = inr argv →
     run_command argv (Some t) v (env w) = (inr tt, e') →
     decode self i out fmt t v w =
     (file_checksum out e',
      {| heap := heap w; check_cache := check_cache w;
         calls := calls w ++ [Call_run_command argv (Some t) v;
                              Call_file_checksum out];
         env := e' |})).
  { intros C w self o i out fmt t v argv e' Ho Hargv Hrun.
    rewrite (decode_run _ _ o _ _ _ _ _ argv) by done.
    unfold bind, call_run_command, call_file_checksum. rewrite Hrun. simpl.
    by rewrite <- app_assoc. }
  split; [exact H1|].
  intros digest bytes i out w self o fmt t v argv Ho Hargv.
  rewrite (H1 (stand_in digest (writing_runner out bytes)) w self o i out fmt t v
              argv (<[out := bytes]> (env w))) by done.
  simpl. unfold checksum_with. by rewrite lookup_insert_eq.
Qed.

Lemma decode_returns_checksum_witness :
  fst (decode (C := writing) 1%positive "in.bin" "out.raw" FORMAT_I420 30%Z false
         (snd (world_with (C := writing) GStreamerLibavH264 ∅))) =
  inr (sample_digest sample_bytes).
Proof.
  apply (proj2 decode_returns_checksum sample_digest sample_bytes "in.bin" "out.raw"
           (snd (world_with (C := writing) GStreamerLibavH264 ∅)) 1%positive
           libav_h264_object
           FORMAT_I420 30%Z false
           ["gst-launch-1.0"; "filesrc"; "location=in.bin"; "!"; "h264parse";
            "!"; "avdec_h264"; "!"; "video/x-raw"; "!"; "videoconvert";
            "dither=none"; "!"; "video/x-raw,format=I420"; "!"; "filesink";
            "location=out.raw"]); reflexivity.
Defined.

(** ** [check] *)

Section Check.
Context {C : Collaborators}.

(** What the function under the decorator returns and leaves behind, by
    the outcome of each statement of the [try] block. *)
Lemma check_body_no_object w self v :
  heap w !! self = None → check_body self v w = (inr false, w).
Proof.
  intros Ho. unfold check_body, try_except, probe, bind, deref. by rewrite Ho.
Qed.

Lemma check_body_no_argv w self o v e :
  heap w !! self = Some o → probe_argv o = inl e →
  check_body self v w = (inr false, w).
Proof.
  intros Ho Ha. unfold check_body, try_except, probe, bind, deref, lift.
  by rewrite Ho, Ha.
Qed.

Lemma check_body_run w self o v argv :
  heap w !! self = Some o → probe_argv o = inr argv →
  check_body self v w =
  (inr (match fst (run_command argv None v (env w)) with
        | inl _ => false
        | inr _ => true
        end),
   {| heap := heap w; check_cache := check_cache w;
      calls := calls w ++ [Call_run_command argv None v];
      env := snd (run_command argv None v (env w)) |}).
Proof.
  intros Ho Ha.
  unfold check_body, try_except, probe, bind, deref, lift, call_run_command, ret.
  rewrite Ho, Ha. by destruct (run_command argv None v (env w)) as [[e|[]] e'].
Qed.

(** The function under the decorator never raises and touches neither the
    objects nor the cache. *)
Lemma check_body_total w self v :
  ∃ b w', check_body self v w = (inr b, w') ∧
          heap w' = heap w ∧ check_cache w' = check_cache w.
Proof.
  destruct (heap w !! self) as [o|] eqn:Ho.
  - destruct (probe_argv o) as [e|argv] eqn:Ha.
    + exists false, w. by rewrite (check_body_no_argv _ _ o _ e).
    + eexists _, _. by rewrite (check_body_run _ _ o _ argv).
  - exists false, w. by rewrite check_body_no_object.
Qed.

Lemma check_hit w form self v b :
  check_cache w !! call_key form self v = Some b →
  check form self v w = (inr b, w).
Proof. intros Hc. unfold check, lru_cache. by rewrite Hc. Qed.

Lemma check_miss w form self v b w' :
  check_cache w !! call_key form self v = None →
  check_body self v w = (inr b, w') →
  check form self v w =
  (inr b, {| heap := heap w';
             check_cache := <[call_key form self v := b]> (check_cache w');
             calls := calls w'; env := env w' |}).
Proof. intros Hc Hb. unfold check, lru_cache. by rewrite Hc, Hb. Qed.
End Check.

(** C4: [check] never raises: it returns a boolean in every state, for every
    object reference and flag, in whatever form it is called.  When the result is not cached and the probe
    runs on the object, the boolean is [false] if normalising the command
    raises, if splitting the probe pipeline raises, or if the runner raises
    (a non-zero exit included), and [true] if the runner returns. *)
Theorem check_never_raises {C : Collaborators} (w : World) (form : CallForm)
    (self : positive) (v : bool) :
  ∃ (b : bool) (w' : World),
    check form self v w = (inr b, w') ∧
    ∀ o : GStreamer,
      check_cache w !! call_key form self v = None →
      heap w !! self = Some o →
      (∀ e, normalize_binary_cmd ("gst-launch-" +:+ gst_api (cls o)) = inl e →
            b = false) ∧
      (∀ binary e,
         normalize_binary_cmd ("gst-launch-" +:+ gst_api (cls o)) = inr binary →
         shlex_split (binary +:+ " appsrc num-buffers=0 ! "
                        +:+ decoder_bin (cls o) +:+ " ! fakesink") = inl e →
         b = false) ∧
      (∀ binary argv,
         normalize_binary_cmd ("gst-launch-" +:+ gst_api (cls o)) = inr binary →
         shlex_split (binary +:+ " appsrc num-buffers=0 ! "
                        +:+ decoder_bin (cls o) +:+ " ! fakesink") = inr argv →
         (∀ e e', run_command argv None v (env w) = (inl e, e') → b = false) ∧
         (∀ e', run_command argv None v (env w) = (inr tt, e') → b = true)).
Proof.
  destruct (check_cache w !! call_key form self v) as [b0|] eqn:Hc.
  { exists b0, w. split; [by apply check_hit|]. intros o Hn. done. }
  destruct (check_body_total w self v) as (b & w' & Hb & _ & _).
  eexists b, _. split; [by apply check_miss|].
  intros o _ Ho. unfold probe_argv in *.
  split; [|split].
  - intros e Hn. rewrite (check_body_no_argv _ _ o _ e) in Hb; [congruence|done|].
    unfold probe_argv. by rewrite Hn.
  - intros binary e Hn Hs.
    rewrite (check_body_no_argv _ _ o _ e) in Hb; [congruence|done|].
    unfold probe_argv. by rewrite Hn.
  - intros binary argv Hn Hs.
    rewrite (check_body_run _ _ o _ argv) in Hb;
      [|done|unfold probe_argv; by rewrite Hn].
    split.
    + intros e e' Hr. rewrite Hr in Hb. simpl in Hb. congruence.
    + intros e' Hr. rewrite Hr in Hb. simpl in Hb. congruence.
Qed.

Lemma check_never_raises_witness :
  fst (check (C := quiet) By_position 1%positive false
         (snd (world_with (C := quiet) GStreamerLibavH264 ∅))) = inr false.
Proof.
  destruct (check_never_raises (C := quiet)
              (snd (world_with (C := quiet) GStreamerLibavH264 ∅)) By_position
              1%positive false)
    as (b & w' & Hcheck & Hprobe).
  rewrite Hcheck. simpl. f_equal.
  destruct (Hprobe libav_h264_object eq_refl eq_refl)
    as (_ & _ & Hrun).
  destruct (Hrun "gst-launch-1.0"
              ["gst-launch-1.0"; "appsrc"; "num-buffers=0"; "!"; "h264parse"; "!";
               "avdec_h264"; "!"; "fakesink"] eq_refl eq_refl) as [Hfail _].
  exact (Hfail (ProcessError "exit status 1") ∅ eq_refl).
Defined.

(** ** Memoisation of [check] *)

Section Memo.
Context {C : Collaborators}.

Lemma decode_cache w self i out fmt t v :
  check_cache (snd (decode self i out fmt t v w)) = check_cache w.
Proof.
  unfold decode, gen_pipeline, bind, deref, lift, call_run_command,
    call_file_checksum.
  destruct (heap w !! self) as [o|]; [|done].
  destruct (pipeline_of o i out fmt) as [e|p] eqn:Hp; unfold pipeline_of in Hp;
    rewrite Hp; [done|].
  destruct (shlex_split p) as [e|argv]; [done|].
  by destruct (run_command argv (Some t) v (env w)) as [[e|[]] e'].
Qed.

Lemma new_cache k w : check_cache (snd (new k w)) = check_cache w.
Proof. unfold new. by destruct (init k). Qed.

(** An entry of the cache is never replaced or removed. *)
Lemma exec_op_cache op w key b :
  check_cache w !! key = Some b → check_cache (exec_op op w) !! key = Some b.
Proof.
  intros Hk. destruct op as [k|self i out fmt|self i out fmt t v|form self v]; simpl.
  - by rewrite new_cache.
  - by rewrite gen_pipeline_state.
  - by rewrite decode_cache.
  - destruct (check_cache w !! call_key form self v) as [b0|] eqn:Hc.
    + by rewrite (check_hit _ _ _ _ b0).
    + destruct (check_body_total w self v) as (b1 & w1 & Hb & _ & Hcache).
      rewrite (check_miss _ _ _ _ b1 w1) by done. simpl.
      rewrite lookup_insert_ne; [by rewrite Hcache|]. congruence.
Qed.

Lemma exec_ops_cache ops w key b :
  check_cache w !! key = Some b → check_cache (exec_ops ops w) !! key = Some b.
Proof.
  revert w. induction ops as [|op ops IH]; intros w Hk; [done|].
  simpl. apply IH. by apply exec_op_cache.
Qed.
End Memo.

(** The key tells the form of the call, the object and the flag apart. *)
Lemma call_key_inj (f1 f2 : CallForm) (s1 s2 : positive) (v1 v2 : bool) :
  call_key f1 s1 v1 = call_key f2 s2 v2 → f1 = f2 ∧ s1 = s2 ∧ v1 = v2.
Proof. destruct f1, f2; cbn; intros [=]; by subst. Qed.

(** C6 (as amended): [check] is memoised per object, flag and form of the
    call: the key of the cache is made from the arguments as they are
    passed, so the flag given by position and the same flag given by keyword
    are two entries.  The first call in a form with a flag (nothing cached
    under its key) returns a boolean and calls the runner at most once:
    exactly once when the command line of the probe is built, not at all
    when normalising the command or splitting the pipeline raises.  It
    stores the boolean under its own key and touches no other entry.  After
    it, whatever else the process does, every call on the same object with
    the same flag in the same form returns that boolean and leaves the
    state, the log of calls included, as it is. *)
Theorem check_memoized {C : Collaborators} (w : World) (form : CallForm)
    (self : positive) (o : GStreamer) (v : bool) :
  heap w !! self = Some o →
  check_cache w !! call_key form self v = None →
  ∃ (b : bool) (w1 : World),
    check form self v w = (inr b, w1) ∧
    calls w1 =
      calls w ++ match probe_argv o with
                 | inr argv => [Call_run_command argv None v]
                 | inl _ => []
                 end ∧
    (∀ (form' : CallForm) (self' : positive) (v' : bool),
       (form', self', v') ≠ (form, self, v) →
       check_cache w1 !! call_key form' self' v' =
       check_cache w !! call_key form' self' v') ∧
    ∀ ops : list Op,
      check form self v (exec_ops ops w1) = (inr b, exec_ops ops w1).
Proof.
  intros Ho Hc.
  assert (Hother : ∀ b (form' : CallForm) (self' : positive) (v' : bool),
            (form', self', v') ≠ (form, self, v) →
            <[call_key form self v := b]> (check_cache w)
              !! call_key form' self' v' =
            check_cache w !! call_key form' self' v').
  { intros b form' self' v' Hne. apply lookup_insert_ne.
    intros (-> & -> & ->)%call_key_inj. by apply Hne. }
  destruct (probe_argv o) as [e|argv] eqn:Ha.
  - exists false. eexists. split.
    + apply check_miss; [done|]. by apply (check_body_no_argv _ _ o _ e).
    + simpl. split; [by rewrite app_nil_r|]. split; [apply Hother|].
      intros ops. apply check_hit, exec_ops_cache. simpl. apply lookup_insert_eq.
  - eexists _, _. split.
    + apply check_miss; [done|]. by apply (check_body_run _ _ o _ argv).
    + simpl. split; [done|]. split; [apply Hother|].
      intros ops. apply check_hit, exec_ops_cache. simpl. apply lookup_insert_eq.
Qed.

Lemma check_memoized_witness :
  ∃ (b : bool) (w1 : World (C := quiet)),
    check (C := quiet) By_keyword 1%positive true
      (snd (world_with (C := quiet) GStreamerLibavH264 ∅)) = (inr b, w1) ∧
    calls w1 =
      [Call_run_command
         ["gst-launch-1.0"; "appsrc"; "num-buffers=0"; "!"; "h264parse"; "!";
          "avdec_h264"; "!"; "fakesink"] None true] ∧
    (∀ (form' : CallForm) (self' : positive) (v' : bool),
       (form', self', v') ≠ (By_keyword, 1%positive, true) →
       check_cache w1 !! call_key form' self' v' =
       check_cache (snd (world_with (C := quiet) GStreamerLibavH264 ∅))
         !! call_key form' self' v') ∧
    ∀ ops : list Op,
      check (C := quiet) By_keyword 1%positive true (exec_ops ops w1) =
      (inr b, exec_ops ops w1).
Proof.
  apply (check_memoized (C := quiet)
           (snd (world_with (C := quiet) GStreamerLibavH264 ∅)) By_keyword
           1%positive libav_h264_object true); reflexivity.
Defined.

(** C6 as stated fails: on an object of the registered class
    [GStreamerLibavH264], with a runner that succeeds, [check(True)] probes
    and returns [True]; the call [check(verbose=True)] that follows, on the
    same object with the same flag, is not answered from the cache: it runs
    the probe again, so that the log holds two calls of the runner. *)
Lemma check_keyword_call_probes_again :
  fst (check (C := noisy) By_position 1%positive true
         (snd (world_with (C := noisy) GStreamerLibavH264 ∅))) = inr true ∧
  calls (snd (check (C := noisy) By_position 1%positive true
                (snd (world_with (C := noisy) GStreamerLibavH264 ∅)))) =
    [Call_run_command
       ["gst-launch-1.0"; "appsrc"; "num-buffers=0"; "!"; "h264parse"; "!";
        "avdec_h264"; "!"; "fakesink"] None true] ∧
  calls (snd (check (C := noisy) By_keyword 1%positive true
                (snd (check (C := noisy) By_position 1%positive true
                        (snd (world_with (C := noisy) GStreamerLibavH264 ∅))))))
  = [Call_run_command
       ["gst-launch-1.0"; "appsrc"; "num-buffers=0"; "!"; "h264parse"; "!";
        "avdec_h264"; "!"; "fakesink"] None true;
     Call_run_command
       ["gst-launch-1.0"; "appsrc"; "num-buffers=0"; "!"; "h264parse"; "!";
        "avdec_h264"; "!"; "fakesink"] None true].
Proof. vm_compute. done. Qed.

(** The first call makes no call of the runner when the command line of
    the probe cannot be built: on an object whose decoder fragment leaves a
    quotation open, with a runner that would succeed, [check] returns
    [False] and the log of calls stays empty. *)
Lemma check_first_call_without_runner :
  check_cache (snd (world_with (C := writing) unbalanced_class ∅)) = ∅ ∧
  fst (check (C := writing) By_position 1%positive false
         (snd (world_with (C := writing) unbalanced_class ∅))) = inr false ∧
  calls (snd (check (C := writing) By_position 1%positive false
                (snd (world_with (C := writing) unbalanced_class ∅)))) = [].
Proof. vm_compute. done. Qed.

(** ** Names of the registered classes *)

Lemma list_ascii_of_string_app (s1 s2 : string) :
  list_ascii_of_string (s1 +:+ s2) =
  list_ascii_of_string s1 ++ list_ascii_of_string s2.
Proof.
  induction s1 as [|c s1 IH]; [done|]. unfold String.app in *; simpl. by f_equal.
Qed.

Lemma list_ascii_of_string_inj (s1 s2 : string) :
  list_ascii_of_string s1 = list_ascii_of_string s2 → s1 = s2.
Proof.
  intros H. rewrite <- (string_of_list_ascii_of_string s1),
    <- (string_of_list_ascii_of_string s2). by rewrite H.
Qed.

Lemma append_inj_r (x y s : string) : x +:+ s = y +:+ s → x = y.
Proof.
  intros H. apply list_ascii_of_string_inj.
  apply (f_equal list_ascii_of_string) in H.
  rewrite !list_ascii_of_string_app in H. by apply app_inv_tail in H.
Qed.

Lemma first_char_app (s x : string) :
  s ≠ "" → first_char (s +:+ x) = first_char s.
Proof. by destruct s. Qed.

Lemma last_chars_app (n : nat) (l1 l2 : list ascii) :
  n ≤ length l2 → last_chars n (l1 ++ l2) = last_chars n l2.
Proof.
  intros Hn. unfold last_chars. rewrite length_app, drop_app_ge by lia.
  f_equal. lia.
Qed.

Section Names.
Context {C : Collaborators}.

Lemma init_name k o :
  init k = inr o →
  name o = name_prefix k +:+ codec_value (codec k) +:+ name_suffix k.
Proof.
  unfold init. destruct (normalize_binary_cmd (cmd k)); simpl; [done|].
  intros [= <-]. simpl. unfold name_prefix, name_suffix.
  by rewrite append_assoc.
Qed.
End Names.

Lemma name_eq_may_collide (k1 k2 : GStreamerClass) (v1 v2 : string) :
  name_prefix k1 +:+ v1 +:+ name_suffix k1 =
  name_prefix k2 +:+ v2 +:+ name_suffix k2 →
  may_collide k1 k2 = true.
Proof.
  intros H. unfold may_collide. apply andb_true_iff. split; apply bool_decide_eq_true.
  - apply (f_equal first_char) in H.
    rewrite !first_char_app in H; [done| |];
      unfold name_prefix; by destruct (provider _).
  - apply (f_equal list_ascii_of_string) in H.
    rewrite !list_ascii_of_string_app, !app_assoc in H.
    apply (f_equal (last_chars
      (length (list_ascii_of_string (name_suffix k1))
         `min` length (list_ascii_of_string (name_suffix k2))))) in H.
    rewrite !last_chars_app in H by lia. done.
Qed.

Lemma registered_frames :
  forallb (λ k1, forallb (λ k2, implb (may_collide k1 k2) (same_frame k1 k2))
                   registered) registered = true.
Proof. vm_compute. reflexivity. Qed.

Lemma registered_keys : NoDup (name_key <$> registered).
Proof.
  apply (bool_decide_unpack (NoDup (name_key <$> registered))).
  vm_compute. exact I.
Qed.

(** C7: the names that the registered classes construct are pairwise
    distinct: the objects of two different entries of the registry get
    different names.  The codec values come from [fluster.codec]; what is
    used of them is that the two members have different values. *)
Theorem registered_names_unique {C : Collaborators} (i j : nat)
    (k1 k2 : GStreamerClass) (o1 o2 : GStreamer) :
  codec_value H264 ≠ codec_value H265 →
  registered !! i = Some k1 →
  registered !! j = Some k2 →
  init k1 = inr o1 →
  init k2 = inr o2 →
  i ≠ j →
  name o1 ≠ name o2.
Proof.
  intros Hv Hi Hj H1 H2 Hij Hname. apply Hij.
  rewrite (init_name k1 o1), (init_name k2 o2) in Hname by done.
  assert (Hframe : same_frame k1 k2 = true).
  { pose proof registered_frames as Hall.
    rewrite forallb_forall in Hall.
    specialize (Hall k1). rewrite forallb_forall in Hall.
    assert (Hin1 : In k1 registered)
      by (apply list_elem_of_In, list_elem_of_lookup; eauto).
    assert (Hin2 : In k2 registered)
      by (apply list_elem_of_In, list_elem_of_lookup; eauto).
    specialize (Hall Hin1 k2 Hin2).
    by rewrite (name_eq_may_collide k1 k2 _ _ Hname) in Hall. }
  apply andb_true_iff in Hframe as [Hp Hs].
  apply bool_decide_eq_true in Hp, Hs.
  rewrite Hp, Hs in Hname.
  apply (inj (String.app _)), append_inj_r in Hname.
  assert (Hc : codec k1 = codec k2).
  { destruct (codec k1), (codec k2); congruence. }
  apply (NoDup_lookup (name_key <$> registered) i j (name_key k1));
    [apply registered_keys| |].
  - by rewrite list_lookup_fmap, Hi.
  - rewrite list_lookup_fmap, Hj. simpl. unfold name_key. by rewrite Hp, Hs, Hc.
Qed.

Lemma registered_names_unique_witness :
  "GStreamer-H264-VAAPI-Gst1.0" ≠ "GStreamer-H265-VAAPI-Gst1.0".
Proof.
  apply (registered_names_unique (C := quiet) 6 2
           GStreamerVaapiH264Gst10Decoder GStreamerVaapiH265Gst10Decoder
           {| cls := GStreamerVaapiH264Gst10Decoder;
              name := "GStreamer-H264-VAAPI-Gst1.0";
              description := "GStreamer H264 VAAPI decoder for GStreamer 1.0";
              self_cmd := "gst-launch-1.0" |}
           {| cls := GStreamerVaapiH265Gst10Decoder;
              name := "GStreamer-H265-VAAPI-Gst1.0";
              description := "GStreamer H265 VAAPI decoder for GStreamer 1.0";
              self_cmd := "gst-launch-1.0" |});
    [discriminate | reflexivity | reflexivity | reflexivity | reflexivity
    | discriminate].
Defined.

(** ** Splitting the pipeline: the padding of the decoder fragments *)

Lemma res_map_app {A} (l1 l2 : list A) (r : exn + list A) :
  res_map (app l1) (res_map (app l2) r) = res_map (app (l1 ++ l2)) r.
Proof. destruct r; simpl; [done|]. by rewrite app_assoc. Qed.

Lemma res_map_nil {A} (r : exn + list A) : res_map (app []) r = r.
Proof. by destruct r. Qed.

(** Reading a concatenation: the first piece, then the rest from the lexer
    the first piece leaves. *)
Lemma read_tokens_app (a b : string) (lx : lexer) :
  read_tokens (a +:+ b) lx =
  res_map (app (fst (feed a lx))) (read_tokens b (snd (feed a lx))).
Proof.
  revert lx. induction a as [|c a IH]; intros lx.
  - simpl. by rewrite res_map_nil.
  - change (String c a +:+ b) with (String c (a +:+ b)). simpl.
    destruct (step c lx) as [out lx']. rewrite IH.
    destruct (feed a lx') as [out' lx'']. simpl. by rewrite res_map_app.
Qed.

Lemma feed_app (a b : string) (lx : lexer) :
  feed (a +:+ b) lx =
  (fst (feed a lx) ++ fst (feed b (snd (feed a lx))),
   snd (feed b (snd (feed a lx)))).
Proof.
  revert lx. induction a as [|c a IH]; intros lx.
  - change ("" +:+ b) with b. simpl. by destruct (feed b lx).
  - change (String c a +:+ b) with (String c (a +:+ b)). simpl.
    destruct (step c lx) as [out lx']. rewrite IH.
    destruct (feed a lx') as [out' lx'']. simpl. by rewrite app_assoc.
Qed.

(** Outside a quotation, the separator of the template ends the token in
    progress and leaves the lexer at the start of a token. *)
Lemma feed_separator (lx : lexer) :
  state lx = S_space ∨ state lx = S_word →
  snd (feed " ! " lx) = entry S_space.
Proof.
  destruct lx as [st tok qd esc]. simpl.
  intros [-> | ->]; by destruct tok, qd.
Qed.

Lemma break_or_continue_state (st : lex_state) (lx : lexer) :
  state (snd (break_or_continue st lx)) = st.
Proof. unfold break_or_continue. by destruct (nonempty (token lx) || quoted lx). Qed.

Lemma step_plain (c : ascii) (lx : lexer) :
  in_str c quotes = false → in_str c escape = false →
  state lx = S_space ∨ state lx = S_word →
  state (snd (step c lx)) = S_space ∨ state (snd (step c lx)) = S_word.
Proof.
  intros Hq He. destruct lx as [st tok qd esc]. unfold step.
  intros [Hst | Hst]; cbn [state] in Hst; subst st; cbv beta iota;
    rewrite ?Hq, ?He;
    destruct (in_str c whitespace); rewrite ?break_or_continue_state; auto;
    destruct (in_str c wordchars); auto.
Qed.

Lemma feed_plain (s : string) (lx : lexer) :
  plain s = true →
  state lx = S_space ∨ state lx = S_word →
  state (snd (feed s lx)) = S_space ∨ state (snd (feed s lx)) = S_word.
Proof.
  revert lx. induction s as [|c s IH]; intros lx Hs Hlx; [done|].
  simpl in Hs. apply andb_true_iff in Hs as [Hc Hs].
  apply andb_true_iff in Hc as [Hq He]. apply negb_true_iff in Hq, He.
  simpl. pose proof (step_plain c lx Hq He Hlx) as Hstep.
  destruct (step c lx) as [out lx']. specialize (IH lx' Hs Hstep).
  by destruct (feed s lx').
Qed.

(** Without quote and escape characters nothing can be left open. *)
Lemma closed_after_plain (s : string) : plain s = true → closed_after s = true.
Proof.
  intros Hs. unfold closed_after.
  by destruct (feed_plain s (entry S_space) Hs (or_introl eq_refl)) as [-> | ->].
Qed.

(** Each registered fragment followed by a space reads like the fragment
    without its padding followed by a space. *)
Lemma registered_padding :
  Forall (λ k, feed (decoder_bin k +:+ " ") (entry S_space) =
               feed (strip (decoder_bin k) +:+ " ") (entry S_space))
    registered.
Proof.
  apply (bool_decide_unpack _). vm_compute. exact I.
Qed.

(** Splitting what follows the separator before the fragment does not
    depend on the padding of the fragment, once no quotation is open at the
    separator. *)
Lemma shlex_split_padding (k : GStreamerClass) (P R : string) :
  In k registered →
  closed_after P = true →
  shlex_split (P +:+ " ! " +:+ decoder_bin k +:+ " ! " +:+ R) =
  shlex_split (P +:+ " ! " +:+ strip (decoder_bin k) +:+ " ! " +:+ R).
Proof.
  intros Hk HP. unfold shlex_split.
  rewrite !(read_tokens_app P). f_equal.
  rewrite !(read_tokens_app " ! "). f_equal.
  rewrite feed_separator.
  2:{ unfold closed_after in HP.
      destruct (state (snd (feed P (entry S_space)))); auto; done. }
  change (decoder_bin k +:+ " ! " +:+ R)
    with (decoder_bin k +:+ " " +:+ "! " +:+ R).
  change (strip (decoder_bin k) +:+ " ! " +:+ R)
    with (strip (decoder_bin k) +:+ " " +:+ "! " +:+ R).
  rewrite <- !(append_assoc _ " " ("! " +:+ R)).
  rewrite !(read_tokens_app (_ +:+ " ")).
  pose proof registered_padding as Hall.
  rewrite Forall_forall in Hall.
  by rewrite (Hall k) by by apply list_elem_of_In.
Qed.

(** The tokens a registered fragment contributes are its words: none is
    empty, none is merged with a neighbour or cut. *)
Lemma registered_fragment_tokens :
  Forall (λ k, fst (feed (decoder_bin k +:+ " ") (entry S_space)) =
                 String.words (decoder_bin k) ∧
               snd (feed (decoder_bin k +:+ " ") (entry S_space)) =
                 entry S_space ∧
               ("" ∉ String.words (decoder_bin k)))
    registered.
Proof.
  apply (bool_decide_unpack _). vm_compute. exact I.
Qed.

Lemma shlex_split_fragment (k : GStreamerClass) (P R : string)
    (argv : list string) :
  In k registered →
  closed_after P = true →
  shlex_split (P +:+ " ! " +:+ decoder_bin k +:+ " ! " +:+ R) = inr argv →
  ∃ before after : list string,
    argv = before ++ String.words (decoder_bin k) ++ after.
Proof.
  intros Hk HP. unfold shlex_split.
  rewrite (read_tokens_app P), (read_tokens_app " ! "), feed_separator.
  2:{ unfold closed_after in HP.
      destruct (state (snd (feed P (entry S_space)))); auto; done. }
  change (decoder_bin k +:+ " ! " +:+ R)
    with (decoder_bin k +:+ " " +:+ "! " +:+ R).
  rewrite <- (append_assoc _ " " ("! " +:+ R)), (read_tokens_app (_ +:+ " ")).
  pose proof registered_fragment_tokens as Hall.
  rewrite Forall_forall in Hall.
  destruct (Hall k) as (-> & -> & _); [by apply list_elem_of_In|].
  rewrite !res_map_app.
  destruct (read_tokens ("! " +:+ R) (entry S_space)) as [e|after]; simpl; [done|].
  intros [= <-]. eexists _, after. by rewrite <- (app_assoc _ _ after).
Qed.

(** C10 (as amended): for an object of a registered class, when the command
    and the input path leave no quotation and no escape open at the end of
    [<cmd> filesrc location=<input>], splitting the generated pipeline gives
    the same result, token list or error, as splitting the pipeline of the
    same object with the padding of its decoder fragment removed; and in a
    token list it gives, the fragment appears as its words, none of them
    empty. *)
Theorem argv_insensitive_to_padding {C : Collaborators} (o : GStreamer)
    (i out : string) (fmt : PixelFormat) :
  In (cls o) registered →
  closed_after (self_cmd o +:+ " filesrc location=" +:+ i) = true →
  argv_of o i out fmt = argv_of (single_spaced o) i out fmt ∧
  ("" ∉ String.words (decoder_bin (cls o))) ∧
  ∀ argv : list string, argv_of o i out fmt = inr argv →
    ∃ before after : list string,
      argv = before ++ String.words (decoder_bin (cls o)) ++ after.
Proof.
  intros Hk HP. split; [|split].
  - unfold argv_of, pipeline_of. simpl.
    destruct (builder (cls o)).
    + rewrite !GStreamer_gen_pipeline_eq. simpl.
      rewrite <- !(append_assoc " filesrc location=" i),
              <- !(append_assoc (self_cmd o) (" filesrc location=" +:+ i)).
      by apply shlex_split_padding.
    + destruct (to_gst fmt) as [e|tok] eqn:Htok.
      * unfold GStreamer10_gen_pipeline. by rewrite Htok.
      * rewrite !(GStreamer10_gen_pipeline_eq _ _ _ _ tok) by done. simpl.
        rewrite <- !(append_assoc " filesrc location=" i),
                <- !(append_assoc (self_cmd o) (" filesrc location=" +:+ i)).
        by apply shlex_split_padding.
  - pose proof registered_fragment_tokens as Hall.
    rewrite Forall_forall in Hall.
    by destruct (Hall (cls o)) as (_ & _ & ?); [by apply list_elem_of_In|].
  - intros argv. unfold argv_of, pipeline_of.
    destruct (builder (cls o)).
    + rewrite GStreamer_gen_pipeline_eq. simpl.
      rewrite <- (append_assoc " filesrc location=" i),
              <- (append_assoc (self_cmd o) (" filesrc location=" +:+ i)).
      by apply shlex_split_fragment.
    + destruct (to_gst fmt) as [e|tok] eqn:Htok.
      * unfold GStreamer10_gen_pipeline. by rewrite Htok.
      * rewrite (GStreamer10_gen_pipeline_eq _ _ _ _ tok) by done. simpl.
        rewrite <- (append_assoc " filesrc location=" i),
                <- (append_assoc (self_cmd o) (" filesrc location=" +:+ i)).
        by apply shlex_split_fragment.
Qed.

Lemma argv_insensitive_to_padding_witness :
  argv_of (C := quiet) libav_h264_object "in.bin" "out.raw" FORMAT_I420 =
  argv_of (C := quiet) (single_spaced libav_h264_object) "in.bin" "out.raw"
    FORMAT_I420.
Proof.
  apply (proj1 (argv_insensitive_to_padding (C := quiet) libav_h264_object
                  "in.bin" "out.raw" FORMAT_I420
                  (or_introl eq_refl) eq_refl)).
Defined.

(** C10 as stated fails: with an apostrophe in the input path and one in
    the output path, the quotation they open and close runs over the decoder
    fragment, so the padding is part of a token: the command line of the
    generated pipeline differs from that of the single-spaced one. *)
Lemma argv_sensitive_to_padding_in_quotation :
  argv_of (C := quiet) libav_h264_object "it's.bin" "it's.raw" FORMAT_I420 =
    inr ["gst-launch-1.0"; "filesrc";
         "location=its.bin !  h264parse ! avdec_h264  ! video/x-raw ! videoconvert dither=none ! video/x-raw,format=I420 ! filesink location=its.raw"] ∧
  argv_of (C := quiet) (single_spaced libav_h264_object) "it's.bin" "it's.raw"
    FORMAT_I420 =
    inr ["gst-launch-1.0"; "filesrc";
         "location=its.bin ! h264parse ! avdec_h264 ! video/x-raw ! videoconvert dither=none ! video/x-raw,format=I420 ! filesink location=its.raw"] ∧
  argv_of (C := quiet) libav_h264_object "it's.bin" "it's.raw" FORMAT_I420 ≠
  argv_of (C := quiet) (single_spaced libav_h264_object) "it's.bin" "it's.raw"
    FORMAT_I420.
Proof. vm_compute. repeat split; discriminate. Qed.

(** * Further properties *)

(** ** Words *)

Lemma bare_app (s1 s2 : string) : bare (s1 +:+ s2) = bare s1 && bare s2.
Proof.
  induction s1 as [|c s1 IH]; [done|].
  change (String c s1 +:+ s2) with (String c (s1 +:+ s2)).
  cbn [bare]. by rewrite IH, andb_assoc.
Qed.

Lemma plain_app (s1 s2 : string) : plain (s1 +:+ s2) = plain s1 && plain s2.
Proof.
  induction s1 as [|c s1 IH]; [done|].
  change (String c s1 +:+ s2) with (String c (s1 +:+ s2)).
  cbn [plain]. by rewrite IH, andb_assoc.
Qed.

Lemma bare_char_cases (c : ascii) :
  bare_char c = true →
  in_str c whitespace = false ∧ in_str c quotes = false ∧ in_str c escape = false.
Proof.
  unfold bare_char. rewrite !andb_true_iff, !negb_true_iff. tauto.
Qed.

Lemma step_bare_space (c : ascii) (tok : string) (qd : bool) (esc : lex_state) :
  bare_char c = true →
  step c (Lexer S_space tok qd esc) = ([], Lexer S_word (String c "") qd esc).
Proof.
  intros (Hw & Hq & He)%bare_char_cases. unfold step.
  rewrite Hw, Hq, He. by destruct (in_str c wordchars).
Qed.

Lemma step_bare_word (c : ascii) (tok : string) (qd : bool) (esc : lex_state) :
  bare_char c = true →
  step c (Lexer S_word tok qd esc) = ([], Lexer S_word (push tok c) qd esc).
Proof.
  intros (Hw & Hq & He)%bare_char_cases. unfold step. by rewrite Hw, Hq, He.
Qed.

Lemma feed_bare_word (w tok : string) (qd : bool) (esc : lex_state) :
  bare w = true →
  feed w (Lexer S_word tok qd esc) = ([], Lexer S_word (tok +:+ w) qd esc).
Proof.
  revert tok. induction w as [|c w IH]; intros tok Hw.
  - simpl. by rewrite append_nil_r.
  - cbn [bare] in Hw. apply andb_true_iff in Hw as [Hc Hw].
    cbn [feed]. rewrite step_bare_word by done. rewrite IH by done.
    unfold push. by rewrite append_assoc.
Qed.

(** A word read at the start of a token is the token in progress. *)
Lemma feed_word (w : string) :
  word w = true →
  feed w (entry S_space) = ([], Lexer S_word w false S_space).
Proof.
  unfold word. destruct w as [|c w]; [done|]. cbn [nonempty bare orb andb].
  intros [Hc Hw]%andb_true_iff. cbn [feed]. unfold entry.
  rewrite step_bare_space by done. by rewrite feed_bare_word.
Qed.

(** A word and the space after it give one token; the lexer is back at the
    start of a token. *)
Lemma read_word (w rest : string) :
  word w = true →
  read_tokens (w +:+ " " +:+ rest) (entry S_space) =
  res_map (cons w) (read_tokens rest (entry S_space)).
Proof.
  intros Hw. rewrite read_tokens_app, feed_word by done. cbn [fst snd].
  change (" " +:+ rest) with (String " " rest). cbn [read_tokens].
  unfold word in Hw. apply andb_true_iff in Hw as [Hn _].
  unfold step. cbn. unfold break_or_continue. cbn [token quoted].
  rewrite Hn. cbn. by destruct (read_tokens rest (entry S_space)).
Qed.

(** A word at the end of the input is the last token. *)
Lemma read_last_word (w : string) :
  word w = true → read_tokens w (entry S_space) = inr [w].
Proof.
  intros Hw. rewrite <- (append_nil_r w) at 1.
  rewrite read_tokens_app, feed_word by done.
  unfold word in Hw. apply andb_true_iff in Hw as [Hn _].
  cbn [fst snd read_tokens at_eof state token quoted]. by rewrite Hn.
Qed.

(** A space at the start of a token is skipped. *)
Lemma read_space (rest : string) :
  read_tokens (" " +:+ rest) (entry S_space) = read_tokens rest (entry S_space).
Proof.
  change (" " +:+ rest) with (String " " rest).
  change (read_tokens (String " " rest) (entry S_space))
    with (res_map (app []) (read_tokens rest (entry S_space))).
  apply res_map_nil.
Qed.

(** X1: joining words with single spaces and splitting the result gives the
    words back. *)
Theorem shlex_split_join (ws : list string) :
  Forall (λ w, word w = true) ws →
  shlex_split (String.concat " " ws) = inr ws.
Proof.
  unfold shlex_split. induction 1 as [|w ws Hw Hws IH]; [done|].
  destruct ws as [|w' ws].
  - by apply read_last_word.
  - change (String.concat " " (w :: w' :: ws))
      with (w +:+ " " +:+ String.concat " " (w' :: ws)).
    rewrite read_word by done. by rewrite IH.
Qed.

Lemma shlex_split_join_witness :
  shlex_split "gst-launch-1.0 appsrc num-buffers=0 ! fakesink" =
  inr ["gst-launch-1.0"; "appsrc"; "num-buffers=0"; "!"; "fakesink"].
Proof.
  apply (shlex_split_join
           ["gst-launch-1.0"; "appsrc"; "num-buffers=0"; "!"; "fakesink"]).
  repeat constructor.
Defined.

(** ** The command lines that are run *)

Lemma res_map_cons_app {A} (x : A) (l : list A) (r : exn + list A) :
  res_map (cons x) (res_map (app l) r) = res_map (app (x :: l)) r.
Proof. by destruct r. Qed.

Lemma res_map_inr {A B} (f : A → B) (a : A) :
  res_map f (inr a : exn + A) = inr (f a).
Proof. done. Qed.

Lemma word_location (s : string) : bare s = true → word ("location=" +:+ s) = true.
Proof. intros Hs. unfold word. by rewrite bare_app, Hs. Qed.

(** The head of a pipeline: the command and the source element. *)
Lemma read_head (c X : string) :
  word c = true →
  read_tokens (c +:+ " filesrc location=" +:+ X) (entry S_space) =
  res_map (app [c; "filesrc"]) (read_tokens ("location=" +:+ X) (entry S_space)).
Proof.
  intros Hc.
  change (c +:+ " filesrc location=" +:+ X)
    with (c +:+ " " +:+ "filesrc" +:+ " " +:+ "location=" +:+ X).
  rewrite !read_word by done.
  by destruct (read_tokens ("location=" +:+ X) (entry S_space)).
Qed.

(** The input path and the link after it. *)
Lemma read_location (i Y : string) :
  bare i = true →
  read_tokens ("location=" +:+ i +:+ " ! " +:+ Y) (entry S_space) =
  res_map (app ["location=" +:+ i; "!"]) (read_tokens Y (entry S_space)).
Proof.
  intros Hi. rewrite <- (append_assoc "location=" i).
  change (" ! " +:+ Y) with (" " +:+ "!" +:+ " " +:+ Y).
  rewrite read_word by by apply word_location.
  rewrite read_word by done.
  by destruct (read_tokens Y (entry S_space)).
Qed.

(** The decoder fragment of a registered class and the link after it. *)
Lemma read_fragment (k : GStreamerClass) (Z : string) :
  In k registered →
  read_tokens (decoder_bin k +:+ " ! " +:+ Z) (entry S_space) =
  res_map (app (String.words (decoder_bin k) ++ ["!"]))
    (read_tokens Z (entry S_space)).
Proof.
  intros Hk.
  change (decoder_bin k +:+ " ! " +:+ Z)
    with (decoder_bin k +:+ " " +:+ "!" +:+ " " +:+ Z).
  rewrite <- (append_assoc _ " " ("!" +:+ " " +:+ Z)), (read_tokens_app (_ +:+ " ")).
  pose proof registered_fragment_tokens as Hall.
  rewrite Forall_forall in Hall.
  destruct (Hall k) as (-> & -> & _); [by apply list_elem_of_In|].
  rewrite read_word by done.
  destruct (read_tokens Z (entry S_space)); [done|].
  cbn. by rewrite <- app_assoc.
Qed.

(** The sink. *)
Lemma read_sink (out : string) :
  bare out = true →
  read_tokens ("! filesink location=" +:+ out) (entry S_space) =
  inr ["!"; "filesink"; "location=" +:+ out].
Proof.
  intros Ho.
  change ("! filesink location=" +:+ out)
    with ("!" +:+ " " +:+ "filesink" +:+ " " +:+ "location=" +:+ out).
  rewrite !read_word by done.
  by rewrite read_last_word by by apply word_location.
Qed.

Lemma registered_caps :
  Forall (λ k, word (caps k) = true) registered.
Proof. apply (bool_decide_unpack _). vm_compute. exact I. Qed.

Lemma read_caps_sink (o : GStreamer) (tok out pipeline : string) :
  word (caps (cls o)) = true →
  bare tok = true →
  bare out = true →
  pipeline =
    match builder (cls o) with
    | Builder_GStreamer => caps (cls o)
    | Builder_GStreamer10 =>
        caps (cls o) +:+ " ! videoconvert dither=none ! video/x-raw,format="
          +:+ tok
    end +:+ " ! filesink location=" +:+ out →
  read_tokens pipeline (entry S_space) =
  inr (caps_tokens o tok ++ ["!"; "filesink"; "location=" +:+ out]).
Proof.
  intros Hc Ht Ho ->. unfold caps_tokens. destruct (builder (cls o)).
  - change (caps (cls o) +:+ " ! filesink location=" +:+ out)
      with (caps (cls o) +:+ " " +:+ "! filesink location=" +:+ out).
    rewrite read_word by done. by rewrite read_sink.
  - rewrite !append_assoc.
    change (" ! videoconvert dither=none ! video/x-raw,format=" +:+ tok
              +:+ " ! filesink location=" +:+ out)
      with (" " +:+ "!" +:+ " " +:+ "videoconvert" +:+ " "
              +:+ "dither=none" +:+ " " +:+ "!" +:+ " "
              +:+ "video/x-raw,format=" +:+ tok
              +:+ " " +:+ "! filesink location=" +:+ out).
    rewrite <- (append_assoc "video/x-raw,format=" tok).
    assert (Hf : word ("video/x-raw,format=" +:+ tok) = true)
      by (unfold word; by rewrite bare_app, Ht).
    rewrite !read_word by done. by rewrite read_sink.
Qed.

Section Argv.
Context {C : Collaborators}.

(** The pipeline of an object, with the format already named. *)
Lemma pipeline_of_eq (o : GStreamer) (i out : string) (fmt : PixelFormat)
    (tok : string) :
  to_gst fmt = inr tok →
  pipeline_of o i out fmt =
  inr (self_cmd o +:+ " filesrc location=" +:+ i +:+ " ! "
         +:+ decoder_bin (cls o) +:+ " ! "
         +:+ match builder (cls o) with
             | Builder_GStreamer => caps (cls o)
             | Builder_GStreamer10 =>
                 caps (cls o)
                   +:+ " ! videoconvert dither=none ! video/x-raw,format="
                   +:+ tok
             end +:+ " ! filesink location=" +:+ out).
Proof.
  intros Htok. unfold pipeline_of. destruct (builder (cls o)).
  - apply GStreamer_gen_pipeline_eq.
  - by apply GStreamer10_gen_pipeline_eq.
Qed.

(** X2: for an object of a registered class whose command is a word, and
    paths and a format name without whitespace, quotes and backslashes, the
    command line that [decode] hands to the runner is the command, the
    source with the input path, the words of the decoder fragment, the caps
    stage and the sink with the output path, each link [!] a token of its
    own. *)
Theorem argv_of_words (o : GStreamer) (i out : string) (fmt : PixelFormat)
    (tok : string) :
  In (cls o) registered →
  to_gst fmt = inr tok →
  word (self_cmd o) = true →
  bare i = true →
  bare out = true →
  bare tok = true →
  argv_of o i out fmt = inr (decode_argv o i out tok).
Proof.
  intros Hk Htok Hc Hi Ho Ht. unfold argv_of.
  rewrite (pipeline_of_eq o i out fmt tok) by done.
  cbn [res_bind]. unfold shlex_split.
  rewrite read_head, read_location, read_fragment by done.
  pose proof registered_caps as Hcaps. rewrite Forall_forall in Hcaps.
  rewrite (read_caps_sink o tok out _
             (Hcaps _ (proj2 (list_elem_of_In _ _) Hk)) Ht Ho eq_refl).
  cbn. unfold decode_argv. by rewrite <- !app_assoc.
Qed.
End Argv.

Lemma argv_of_words_witness :
  argv_of (C := quiet) libav_h264_object "in.bin" "out.raw" FORMAT_I420 =
  inr ["gst-launch-1.0"; "filesrc"; "location=in.bin"; "!"; "h264parse"; "!";
       "avdec_h264"; "!"; "video/x-raw"; "!"; "videoconvert"; "dither=none";
       "!"; "video/x-raw,format=I420"; "!"; "filesink"; "location=out.raw"].
Proof.
  apply (argv_of_words (C := quiet) libav_h264_object "in.bin" "out.raw"
           FORMAT_I420 "I420"); [left|..]; reflexivity.
Defined.

Section ArgvMore.
Context {C : Collaborators}.

(** An input path with a space in it: the part before the space stays with
    [location=], the part after it is a token of its own. *)
Lemma read_location_space (a b Y : string) :
  bare a = true →
  word b = true →
  read_tokens ("location=" +:+ (a +:+ " " +:+ b) +:+ " ! " +:+ Y) (entry S_space) =
  res_map (app ["location=" +:+ a; b; "!"]) (read_tokens Y (entry S_space)).
Proof.
  intros Ha Hb. rewrite !append_assoc. rewrite <- (append_assoc "location=" a).
  change (" ! " +:+ Y) with (" " +:+ "!" +:+ " " +:+ Y).
  rewrite read_word by by apply word_location.
  rewrite !read_word by done.
  by destruct (read_tokens Y (entry S_space)).
Qed.

(** X3: the paths are not quoted: when the input path is two words with a
    space between them, the runner gets them as two arguments, the second
    one on its own between the source and the first link. *)
Theorem argv_of_input_with_space (o : GStreamer) (a b out : string)
    (fmt : PixelFormat) (tok : string) :
  In (cls o) registered →
  to_gst fmt = inr tok →
  word (self_cmd o) = true →
  bare a = true →
  word b = true →
  bare out = true →
  bare tok = true →
  argv_of o (a +:+ " " +:+ b) out fmt =
  inr ([self_cmd o; "filesrc"; "location=" +:+ a; b; "!"]
         ++ String.words (decoder_bin (cls o))
         ++ ["!"] ++ caps_tokens o tok
         ++ ["!"; "filesink"; "location=" +:+ out]).
Proof.
  intros Hk Htok Hc Ha Hb Ho Ht. unfold argv_of.
  rewrite (pipeline_of_eq o _ out fmt tok) by done.
  cbn [res_bind]. unfold shlex_split.
  rewrite read_head, read_location_space, read_fragment by done.
  pose proof registered_caps as Hcaps. rewrite Forall_forall in Hcaps.
  rewrite (read_caps_sink o tok out _
             (Hcaps _ (proj2 (list_elem_of_In _ _) Hk)) Ht Ho eq_refl).
  cbn. by rewrite <- !app_assoc.
Qed.

(** X4: the command line of the probe, for an object of a registered class
    when the normalised launcher name is a word: the launcher, an [appsrc]
    without buffers, the words of the decoder fragment and a [fakesink].
    Neither the command of the object nor its caps occur in it. *)
Theorem probe_argv_words (o : GStreamer) (binary : string) :
  In (cls o) registered →
  normalize_binary_cmd ("gst-launch-" +:+ gst_api (cls o)) = inr binary →
  word binary = true →
  probe_argv o =
  inr ([binary; "appsrc"; "num-buffers=0"; "!"]
         ++ String.words (decoder_bin (cls o)) ++ ["!"; "fakesink"]).
Proof.
  intros Hk Hn Hb. unfold probe_argv. rewrite Hn. cbn [res_bind].
  unfold shlex_split.
  change (binary +:+ " appsrc num-buffers=0 ! " +:+ decoder_bin (cls o)
            +:+ " ! fakesink")
    with (binary +:+ " " +:+ "appsrc" +:+ " " +:+ "num-buffers=0" +:+ " "
            +:+ "!" +:+ " " +:+ decoder_bin (cls o) +:+ " ! " +:+ "fakesink").
  rewrite !read_word, read_fragment, read_last_word by done.
  cbn. by rewrite <- !app_assoc.
Qed.
End ArgvMore.

Lemma argv_of_input_with_space_witness :
  argv_of (C := quiet) libav_h264_object "my clip.bin" "out.raw" FORMAT_I420 =
  inr ["gst-launch-1.0"; "filesrc"; "location=my"; "clip.bin"; "!";
       "h264parse"; "!"; "avdec_h264"; "!"; "video/x-raw"; "!"; "videoconvert";
       "dither=none"; "!"; "video/x-raw,format=I420"; "!"; "filesink";
       "location=out.raw"].
Proof.
  apply (argv_of_input_with_space (C := quiet) libav_h264_object "my" "clip.bin"
           "out.raw" FORMAT_I420 "I420"); [left|..]; reflexivity.
Defined.

Lemma probe_argv_words_witness :
  probe_argv (C := quiet)
    {| cls := FluendoH264Gst010Decoder; name := "Fluendo-H264-SW-Gst0.10";
       description := "Fluendo H264 SW decoder for GStreamer 0.10";
       self_cmd := "gst-launch-0.10" |} =
  inr ["gst-launch-0.10"; "appsrc"; "num-buffers=0"; "!"; "fluh264dec"; "!";
       "fakesink"].
Proof.
  apply (probe_argv_words (C := quiet)
           {| cls := FluendoH264Gst010Decoder; name := "Fluendo-H264-SW-Gst0.10";
              description := "Fluendo H264 SW decoder for GStreamer 0.10";
              self_cmd := "gst-launch-0.10" |} "gst-launch-0.10");
    [do 13 right; left|..]; reflexivity.
Defined.

(** ** When splitting cannot fail *)

Lemma read_tokens_feed (s : string) (lx : lexer) :
  read_tokens s lx =
  res_map (app (fst (feed s lx))) (at_eof (snd (feed s lx))).
Proof.
  rewrite <- (append_nil_r s) at 1. by rewrite read_tokens_app.
Qed.

(** Read from the start of a token, a string without quote and escape
    characters ends in no open quotation. *)
Lemma read_tokens_plain (s : string) :
  plain s = true → ∃ argv : list string, read_tokens s (entry S_space) = inr argv.
Proof.
  intros Hs. rewrite read_tokens_feed.
  pose proof (feed_plain s (entry S_space) Hs (or_introl eq_refl)) as Hst.
  destruct (feed s (entry S_space)) as [out lx]. cbn [fst snd] in *.
  unfold at_eof. destruct Hst as [-> | ->]; by eexists.
Qed.

(** X5: splitting raises only on a quote or a backslash: a string that has
    neither is split into tokens, whatever whitespace it has. *)
Theorem shlex_split_plain (s : string) :
  plain s = true → ∃ argv : list string, shlex_split s = inr argv.
Proof.
  intros Hs. unfold shlex_split.
  destruct (read_tokens_plain s Hs) as [argv Hargv].
  exists argv. exact Hargv.
Qed.

Lemma shlex_split_plain_witness :
  ∃ argv : list string, shlex_split "  a b  c=d !  " = inr argv.
Proof. apply (shlex_split_plain "  a b  c=d !  "). reflexivity. Defined.

Lemma registered_plain :
  Forall (λ k, plain (decoder_bin k) = true ∧ plain (caps k) = true) registered.
Proof. apply (bool_decide_unpack _). vm_compute. exact I. Qed.

(** X6: for an object of a registered class, [decode] gets as far as the
    runner whenever the format has a GStreamer name and neither the command,
    nor a path, nor that name contains a quote or a backslash: building and
    splitting the pipeline then raise nothing, spaces in the paths
    included. *)
Theorem argv_of_plain {C : Collaborators} (o : GStreamer) (i out : string)
    (fmt : PixelFormat) (tok : string) :
  In (cls o) registered →
  to_gst fmt = inr tok →
  plain (self_cmd o) = true →
  plain i = true →
  plain out = true →
  plain tok = true →
  ∃ argv : list string, argv_of o i out fmt = inr argv.
Proof.
  intros Hk Htok Hc Hi Ho Ht. unfold argv_of.
  rewrite (pipeline_of_eq o i out fmt tok) by done. cbn [res_bind].
  apply read_tokens_plain.
  pose proof registered_plain as Hall. rewrite Forall_forall in Hall.
  destruct (Hall (cls o)) as [Hbin Hcaps]; [by apply list_elem_of_In|].
  rewrite !plain_app, Hc, Hi, Hbin, Ho.
  destruct (builder (cls o)); rewrite ?plain_app, ?Hcaps, ?Ht; reflexivity.
Qed.

Lemma argv_of_plain_witness :
  ∃ argv : list string,
    argv_of (C := quiet) libav_h264_object "my clip.bin" "out dir/out.raw"
      FORMAT_I420 = inr argv.
Proof.
  apply (argv_of_plain (C := quiet) libav_h264_object "my clip.bin"
           "out dir/out.raw" FORMAT_I420 "I420"); [left|..]; reflexivity.
Defined.

(** ** What [decode] and [check] do to the process *)

Section Effects.
Context {C : Collaborators}.

(** [decode] when the command line cannot be built. *)
Lemma decode_no_argv w self o i out fmt t v e :
  heap w !! self = Some o →
  argv_of o i out fmt = inl e →
  decode self i out fmt t v w = (inl e, w).
Proof.
  intros Ho Ha. unfold decode, bind at 1.
  rewrite (gen_pipeline_deref _ o) by done. unfold argv_of in Ha.
  destruct (pipeline_of o i out fmt) as [e'|p]; cbn in Ha; [congruence|].
  unfold bind, lift. by rewrite Ha.
Qed.

Lemma decode_no_object w self i out fmt t v :
  heap w !! self = None →
  decode self i out fmt t v w = (inl (ReferenceError "no such object"), w).
Proof.
  intros Ho. unfold decode, gen_pipeline, bind, deref. by rewrite Ho.
Qed.

(** X7: the calls of [decode], in every case.  It leaves the objects and
    the cache of [check] alone.  Either it raises before anything is run and
    the state is as before; or it has called the runner once, with the given
    timeout and flag, the runner raised and [decode] raises the same
    exception; or the runner returned and [decode] has then called
    [file_checksum] once, on the output path, and returns its result.  The
    checksum is never computed after a failed run and the runner is never
    called twice. *)
Theorem decode_calls (w : World) (self : positive) (i out : string)
    (fmt : PixelFormat) (t : Z) (v : bool) :
  heap (snd (decode self i out fmt t v w)) = heap w ∧
  check_cache (snd (decode self i out fmt t v w)) = check_cache w ∧
  ((∃ e, decode self i out fmt t v w = (inl e, w)) ∨
   (∃ argv e e',
      run_command argv (Some t) v (env w) = (inl e, e') ∧
      fst (decode self i out fmt t v w) = inl e ∧
      env (snd (decode self i out fmt t v w)) = e' ∧
      calls (snd (decode self i out fmt t v w)) =
        calls w ++ [Call_run_command argv (Some t) v]) ∨
   (∃ argv e',
      run_command argv (Some t) v (env w) = (inr tt, e') ∧
      fst (decode self i out fmt t v w) = file_checksum out e' ∧
      env (snd (decode self i out fmt t v w)) = e' ∧
      calls (snd (decode self i out fmt t v w)) =
        calls w ++ [Call_run_command argv (Some t) v; Call_file_checksum out])).
Proof.
  destruct (heap w !! self) as [o|] eqn:Ho.
  2:{ rewrite decode_no_object by done. eauto. }
  destruct (argv_of o i out fmt) as [e|argv] eqn:Ha.
  { rewrite (decode_no_argv _ _ o _ _ _ _ _ e) by done. eauto. }
  rewrite (decode_run _ _ o _ _ _ _ _ argv) by done.
  unfold bind, call_run_command, call_file_checksum.
  destruct (run_command argv (Some t) v (env w)) as [[e|[]] e'] eqn:Hr; cbn.
  - split; [done|]. split; [done|]. right. left. by exists argv, e, e'.
  - split; [done|]. split; [done|]. right. right. exists argv, e'.
    by rewrite <- app_assoc.
Qed.

(** X8: [decode] and the output format.  On an object whose class inherits
    [GStreamer.gen_pipeline] the format is not looked at: whatever [decode]
    does, it does the same for any two formats, one without a GStreamer name
    included.  On an object of the GStreamer 1.0 family a format for which
    [to_gst] raises makes [decode] raise that exception before anything is
    run. *)
Theorem decode_output_format (w : World) (self : positive) (o : GStreamer)
    (i out : string) (t : Z) (v : bool) :
  heap w !! self = Some o →
  (builder (cls o) = Builder_GStreamer →
   ∀ f1 f2 : PixelFormat,
     decode self i out f1 t v w = decode self i out f2 t v w) ∧
  (builder (cls o) = Builder_GStreamer10 →
   ∀ (fmt : PixelFormat) (e : exn),
     to_gst fmt = inl e → decode self i out fmt t v w = (inl e, w)).
Proof.
  intros Ho. split.
  - intros Hb f1 f2.
    assert (Ha : argv_of o i out f1 = argv_of o i out f2)
      by (unfold argv_of, pipeline_of; by rewrite Hb).
    destruct (argv_of o i out f2) as [e|argv] eqn:H2.
    + by rewrite !(decode_no_argv _ _ o _ _ _ _ _ e).
    + by rewrite !(decode_run _ _ o _ _ _ _ _ argv).
  - intros Hb fmt e Hfmt. apply (decode_no_argv _ _ o); [done|].
    unfold argv_of, pipeline_of, GStreamer10_gen_pipeline. by rewrite Hb, Hfmt.
Qed.

Lemma check_heap (w : World) (form : CallForm) (self : positive) (v : bool) :
  heap (snd (check form self v w)) = heap w.
Proof.
  destruct (check_cache w !! call_key form self v) as [b|] eqn:Hc.
  { by rewrite (check_hit _ _ _ _ b). }
  destruct (check_body_total w self v) as (b & w' & Hb & Hheap & _).
  by rewrite (check_miss _ _ _ _ b w').
Qed.

(** X9: the calls of [check], in every case and in every form of the call.
    It leaves the objects alone, never calls [file_checksum], and calls the
    runner at most once, always without a timeout and with the flag it was
    given. *)
Theorem check_calls (w : World) (form : CallForm) (self : positive)
    (v : bool) :
  heap (snd (check form self v w)) = heap w ∧
  (snd (check form self v w) = w ∨
   calls (snd (check form self v w)) = calls w ∧
     env (snd (check form self v w)) = env w ∨
   ∃ argv,
     calls (snd (check form self v w)) = calls w ++ [Call_run_command argv None v] ∧
     env (snd (check form self v w)) = snd (run_command argv None v (env w))).
Proof.
  split; [apply check_heap|].
  destruct (check_cache w !! call_key form self v) as [b|] eqn:Hc.
  { rewrite (check_hit _ _ _ _ b) by done. auto. }
  destruct (heap w !! self) as [o|] eqn:Ho.
  - destruct (probe_argv o) as [e|argv] eqn:Ha.
    + rewrite (check_miss _ _ _ _ false w) by
        (done || by apply (check_body_no_argv _ _ o _ e)).
      cbn. auto.
    + erewrite check_miss; [|done|by apply (check_body_run _ _ o _ argv)].
      cbn. right. right. by exists argv.
  - rewrite (check_miss _ _ _ _ false w) by (done || by apply check_body_no_object).
    cbn. auto.
Qed.

(** A call of [check] touches no entry of the cache but its own. *)
Lemma check_other_keys (w : World) (form : CallForm) (self : positive)
    (v : bool) (key : list PyValue) :
  key ≠ call_key form self v →
  check_cache (snd (check form self v w)) !! key = check_cache w !! key.
Proof.
  intros Hk. destruct (check_cache w !! call_key form self v) as [b|] eqn:Hc.
  { by rewrite (check_hit _ _ _ _ b). }
  destruct (check_body_total w self v) as (b & w' & Hb & _ & Hcache).
  rewrite (check_miss _ _ _ _ b w') by done. cbn.
  rewrite lookup_insert_ne by done. by rewrite Hcache.
Qed.

(** X10: the cache is per flag: a result cached for one flag is not used for
    the other, in whatever form the two calls are made.  When the probe's
    command line is built and nothing is cached for the two calls,
    [check(False)] followed by [check(True)] runs the probe twice, once with
    each flag. *)
Theorem check_per_flag (w : World) (form1 form2 : CallForm) (self : positive)
    (o : GStreamer) (argv : list string) :
  heap w !! self = Some o →
  probe_argv o = inr argv →
  check_cache w !! call_key form1 self false = None →
  check_cache w !! call_key form2 self true = None →
  calls (snd (check form2 self true (snd (check form1 self false w)))) =
    calls w ++ [Call_run_command argv None false;
                Call_run_command argv None true].
Proof.
  intros Ho Ha Hf Ht.
  assert (Hc : check_cache (snd (check form1 self false w))
                 !! call_key form2 self true = None).
  { rewrite check_other_keys; [done|].
    intros (_ & _ & [=])%call_key_inj. }
  assert (Hh : heap (snd (check form1 self false w)) !! self = Some o).
  { by rewrite check_heap. }
  erewrite (check_miss (snd (check form1 self false w)) form2 self true);
    [|done|by apply (check_body_run _ _ o _ argv)].
  cbn. erewrite (check_miss w form1 self false);
    [|done|by apply (check_body_run _ _ o _ argv)].
  cbn. by rewrite <- app_assoc.
Qed.
End Effects.

Lemma decode_output_format_witness :
  decode (C := unnamed_formats) 1%positive "in.bin" "out.raw" FORMAT_I420 30%Z
    false (snd (world_with (C := unnamed_formats) GStreamerLibavH264 ∅)) =
  (inl (UnsupportedFormatError "no matching pixel format"),
   snd (world_with (C := unnamed_formats) GStreamerLibavH264 ∅)).
Proof.
  apply (proj2 (decode_output_format (C := unnamed_formats)
                  (snd (world_with (C := unnamed_formats) GStreamerLibavH264 ∅))
                  1%positive libav_h264_object "in.bin" "out.raw" 30%Z false
                  eq_refl) eq_refl FORMAT_I420 _ eq_refl).
Defined.

Lemma check_per_flag_witness :
  calls (snd (check (C := noisy) By_position 1%positive true
                (snd (check (C := noisy) By_position 1%positive false
                        (snd (world_with (C := noisy) GStreamerLibavH264 ∅)))))) =
  [Call_run_command
     ["gst-launch-1.0"; "appsrc"; "num-buffers=0"; "!"; "h264parse"; "!";
      "avdec_h264"; "!"; "fakesink"] None false;
   Call_run_command
     ["gst-launch-1.0"; "appsrc"; "num-buffers=0"; "!"; "h264parse"; "!";
      "avdec_h264"; "!"; "fakesink"] None true].
Proof.
  apply (check_per_flag (C := noisy)
           (snd (world_with (C := noisy) GStreamerLibavH264 ∅))
           By_position By_position 1%positive libav_h264_object
           ["gst-launch-1.0"; "appsrc"; "num-buffers=0"; "!"; "h264parse"; "!";
            "avdec_h264"; "!"; "fakesink"]); reflexivity.
Defined.

(** ** Objects over the life of the process *)

Section Objects.
Context {C : Collaborators}.

Lemma decode_heap w self i out fmt t v :
  heap (snd (decode self i out fmt t v w)) = heap w.
Proof.
  unfold decode, gen_pipeline, bind, deref, lift, call_run_command,
    call_file_checksum.
  destruct (heap w !! self) as [o|]; [|done].
  destruct (pipeline_of o i out fmt) as [e|p] eqn:Hp; unfold pipeline_of in Hp;
    rewrite Hp; [done|].
  destruct (shlex_split p) as [e|argv]; [done|].
  by destruct (run_command argv (Some t) v (env w)) as [[e|[]] e'].
Qed.

Lemma new_heap k w self o :
  heap w !! self = Some o → heap (snd (new k w)) !! self = Some o.
Proof.
  intros Ho. unfold new. destruct (init k) as [e|o']; [done|]. cbn.
  rewrite lookup_insert_ne; [done|]. intros Heq.
  pose proof (is_fresh (dom (heap w))) as Hfresh. rewrite Heq in Hfresh.
  apply Hfresh, elem_of_dom. eauto.
Qed.

Lemma exec_op_heap op w self o :
  heap w !! self = Some o → heap (exec_op op w) !! self = Some o.
Proof.
  intros Ho. destruct op as [k|s i out fmt|s i out fmt t v|f s v]; cbn.
  - by apply new_heap.
  - by rewrite gen_pipeline_state.
  - by rewrite decode_heap.
  - by rewrite check_heap.
Qed.

Lemma exec_ops_heap ops w self o :
  heap w !! self = Some o → heap (exec_ops ops w) !! self = Some o.
Proof.
  revert w. induction ops as [|op ops IH]; intros w Ho; [done|].
  cbn. apply IH. by apply exec_op_heap.
Qed.

(** X11: an object is never changed and never goes away: whatever objects
    are constructed and whatever methods are called afterwards, a reference
    holds the same object with the same name, description and command, and
    [gen_pipeline] on it returns what it returned before. *)
Theorem objects_are_immutable (ops : list Op) (w : World) (self : positive)
    (o : GStreamer) (i out : string) (fmt : PixelFormat) :
  heap w !! self = Some o →
  heap (exec_ops ops w) !! self = Some o ∧
  fst (gen_pipeline self i out fmt (exec_ops ops w)) =
    fst (gen_pipeline self i out fmt w).
Proof.
  intros Ho. pose proof (exec_ops_heap ops w self o Ho) as Ho'.
  split; [done|]. by rewrite !(gen_pipeline_deref _ o).
Qed.

(** X12: construction.  When normalising the command of the class raises,
    the call of the class raises the same and nothing has changed.
    Otherwise it returns a reference that held no object before and now
    holds one of the class, with the normalised command as its [cmd]; every
    other reference holds what it held, and the cache of [check], the log
    of calls and the outer state are as before: nothing was run. *)
Theorem new_allocates (k : GStreamerClass) (w : World) :
  (∀ e, normalize_binary_cmd (cmd k) = inl e → new k w = (inl e, w)) ∧
  (∀ c, normalize_binary_cmd (cmd k) = inr c →
     ∃ self o,
       fst (new k w) = inr self ∧
       heap w !! self = None ∧
       heap (snd (new k w)) !! self = Some o ∧
       cls o = k ∧ self_cmd o = c ∧
       (∀ other, other ≠ self →
          heap (snd (new k w)) !! other = heap w !! other) ∧
       check_cache (snd (new k w)) = check_cache w ∧
       calls (snd (new k w)) = calls w ∧
       env (snd (new k w)) = env w).
Proof.
  unfold new, init. split.
  - intros e ->. done.
  - intros c ->. cbn. eexists _, _. split; [done|].
    split; [apply not_elem_of_dom, is_fresh|].
    rewrite lookup_insert_eq. split; [done|]. cbn. split; [done|]. split; [done|].
    split; [|done]. intros other Hother. by rewrite lookup_insert_ne.
Qed.
End Objects.

Lemma objects_are_immutable_witness :
  heap (exec_ops (C := noisy)
          sample_ops
          (snd (world_with (C := noisy) GStreamerLibavH264 ∅))) !! 1%positive =
    Some libav_h264_object ∧
  fst (gen_pipeline (C := noisy) 1%positive "in.bin" "out.raw" FORMAT_I420
         (exec_ops (C := noisy)
            sample_ops
            (snd (world_with (C := noisy) GStreamerLibavH264 ∅)))) =
  fst (gen_pipeline (C := noisy) 1%positive "in.bin" "out.raw" FORMAT_I420
         (snd (world_with (C := noisy) GStreamerLibavH264 ∅))).
Proof.
  apply (objects_are_immutable (C := noisy)
           sample_ops
           (snd (world_with (C := noisy) GStreamerLibavH264 ∅)) 1%positive
           libav_h264_object "in.bin" "out.raw" FORMAT_I420).
  reflexivity.
Defined.

Lemma new_allocates_witness :
  ∃ (self : positive) (o : GStreamer),
    fst (new (C := quiet) GStreamerLibavH264 (empty_world (C := quiet) ∅))
      = inr self ∧
    heap (empty_world (C := quiet) ∅) !! self = None ∧
    heap (snd (new (C := quiet) GStreamerLibavH264 (empty_world (C := quiet) ∅)))
      !! self = Some o ∧
    cls o = GStreamerLibavH264 ∧ self_cmd o = "gst-launch-1.0" ∧
    (∀ other, other ≠ self →
       heap (snd (new (C := quiet) GStreamerLibavH264
                    (empty_world (C := quiet) ∅))) !! other =
       heap (empty_world (C := quiet) ∅) !! other) ∧
    check_cache (snd (new (C := quiet) GStreamerLibavH264
                        (empty_world (C := quiet) ∅))) = ∅ ∧
    calls (snd (new (C := quiet) GStreamerLibavH264
                  (empty_world (C := quiet) ∅))) = [] ∧
    env (snd (new (C := quiet) GStreamerLibavH264
                (empty_world (C := quiet) ∅))) = ∅.
Proof.
  apply (proj2 (new_allocates (C := quiet) GStreamerLibavH264
                  (empty_world (C := quiet) ∅)) "gst-launch-1.0" eq_refl).
Defined.

(** ** The launcher of the probe and the launcher of [decode] *)

Lemma registered_cmd :
  Forall (λ k, cmd k = "gst-launch-" +:+ gst_api k) registered.
Proof. apply (bool_decide_unpack _). vm_compute. exact I. Qed.

(** X13: the probe tests the tool that [decode] runs: for an object of a
    registered class, the launcher name that [check] normalises,
    [gst-launch-<gst_api>], is the command of the class, so its normalised
    form is the [cmd] of the object, the first word of every pipeline that
    [gen_pipeline] builds for it. *)
Theorem probe_launcher_is_cmd {C : Collaborators} (k : GStreamerClass)
    (o : GStreamer) :
  In k registered →
  init k = inr o →
  normalize_binary_cmd ("gst-launch-" +:+ gst_api (cls o)) = inr (self_cmd o).
Proof.
  intros Hk. pose proof registered_cmd as Hall. rewrite Forall_forall in Hall.
  specialize (Hall k (proj2 (list_elem_of_In _ _) Hk)).
  unfold init. rewrite Hall.
  destruct (normalize_binary_cmd ("gst-launch-" +:+ gst_api k)) as [e|c] eqn:Hn;
    cbn; [done|].
  by intros [= <-].
Qed.

Lemma probe_launcher_is_cmd_witness :
  normalize_binary_cmd (Collaborators := quiet) "gst-launch-1.0" =
  inr "gst-launch-1.0".
Proof.
  apply (probe_launcher_is_cmd (C := quiet) GStreamerLibavH264 libav_h264_object);
    [left|]; reflexivity.
Defined.
